(** * ts-type-diagnostic: fix catalog, diagnostic loop and patch engine

    A shallow embedding of

    - [whenMismatchedOrMissingTypes], [addShapeChoice] and
      [didYouMeanThisChildProperty]
      (src/utils/promptFixes/whenMismatchedOrMissingTypes.ts), the part of
      the fix catalog that turns a classified problem into fix choices;
    - [startFixing] and [ignoreTheseErrors] (the hound: the loop over the
      semantic diagnostics, the prompt loop and the end of the run);

    together with a model of the patch engine, which the specification
    describes but whose code is not among the sources.

    JavaScript objects used as dictionaries with a meaningful enumeration
    order ([context.sourceMap], [context.targetMap]) are association lists;
    [fileCache] is a [gmap] keyed by file name and [processedNodes] a
    [gset] of offsets.  A [TypeError] raised by reading a property of
    [undefined] is an explicit completion of the effect monad. *)

From Stdlib Require Import ZArith Lia.
From stdpp Require Import base option list strings gmap sets pretty sorting.

Local Open Scope string_scope.

(** ** The enumerations of [../types] *)

(** Modelled from the spec: the declaration of the enum [ErrorType] lives in
    [../types], which is not among the sources.  The members are those the
    source file names, and [other] stands for every remaining member. *)
Module ErrorType.
Inductive t :=
| mismatch | simpleToObject | objectToSimple
| propMismatch | targetPropMissing | bothMissing | both
| missingIndex
| other (tag : nat).

#[global] Instance eq_dec : EqDecision t.
Proof. solve_decision. Defined.
End ErrorType.

(** Modelled from the spec: the enum [ReplacementType] of [../types]; its
    members are the five replacement kinds of the data model. *)
Module ReplacementType.
Inductive t :=
| convertType | unionType | insertProperty | insertOptionalProperty
| makeOptional.

#[global] Instance eq_dec : EqDecision t.
Proof. solve_decision. Defined.
End ReplacementType.

(** ** Collaborators of the fix catalog *)

(** The type checker behind [context.cache] and the terminal colours of
    [chalk].  [getDeclarations ty] is [ty.getSymbol()?.getDeclarations()]:
    [None] when the type has no symbol or the symbol no declarations.
    [escapedName d] is [d.name.escapedText] when [d.name] is set.
    [saveNode] stores a node in the cache and returns its id. *)
Class TypeChecker := {
  TsType : Type;
  Declaration : Type;
  NodeCache : Type;
  getType : NodeCache → nat → TsType;
  getDeclarations : TsType → option (list Declaration);
  escapedName : Declaration → option string;
  saveNode : NodeCache → option Declaration → nat * NodeCache;
  chalk_green : string → string;
  chalk_greenBright : string → string;
  chalk_magenta : string → string
}.

(** ** Data *)

Module PlaceholderTarget.
Record t := { key : option string; typeId : nat }.
End PlaceholderTarget.

Module NodeInfo.
Record t `{TypeChecker} := {
  nodeText : string;
  fullText : string;
  typeText : string;
  nodeLink : string;
  typeId : nat;
  isFunc : bool;
  isPlaceholder : bool;
  targetKey : option string;
  placeholderTarget : option PlaceholderTarget.t;
  declaredId : option nat;
  type : option TsType
}.

(** [info.declaredId = id] *)
Definition set_declaredId `{TypeChecker} (id : nat) (info : t) : t :=
  {| nodeText := nodeText info; fullText := fullText info;
     typeText := typeText info; nodeLink := nodeLink info;
     typeId := typeId info; isFunc := isFunc info;
     isPlaceholder := isPlaceholder info; targetKey := targetKey info;
     placeholderTarget := placeholderTarget info;
     declaredId := Some id; type := type info |}.

(** [info.type = ty] *)
Definition set_type `{TypeChecker} (ty : TsType) (info : t) : t :=
  {| nodeText := nodeText info; fullText := fullText info;
     typeText := typeText info; nodeLink := nodeLink info;
     typeId := typeId info; isFunc := isFunc info;
     isPlaceholder := isPlaceholder info; targetKey := targetKey info;
     placeholderTarget := placeholderTarget info;
     declaredId := declaredId info; type := Some ty |}.
End NodeInfo.

(** A JavaScript object from property keys to node infos, in the order
    [Object.values] enumerates it. *)
Abbreviation InfoMap := (list (string * NodeInfo.t)).

(** [map[key]]; an [undefined] key reads the property named "undefined". *)
Definition keyName (key : option string) : string := default "undefined" key.

Fixpoint getProp `{TypeChecker} (m : InfoMap) (key : string) : option NodeInfo.t :=
  match m with
  | [] => None
  | (k, info) :: m' => if decide (k = key) then Some info else getProp m' key
  end.

(** One replacement: the objects [{ primeInfo, otherInfo, type }]. *)
Module Edit.
Record t `{TypeChecker} := {
  primeInfo : option NodeInfo.t;
  otherInfo : option NodeInfo.t;
  type : ReplacementType.t
}.
End Edit.

(** One call [addChoice(title, prompt, nodeInfos)], the title being the
    argument fixed by [addChoice.bind(null, title)]. *)
Module Choice.
Record t `{TypeChecker} := {
  title : string;
  prompt : string;
  edits : list Edit.t
}.
End Choice.

(** One call [suggest(message, link)]. *)
Module Suggestion.
Record t := { message : string; link : string }.
End Suggestion.

Module Layer.
Record t `{TypeChecker} := { sourceInfo : NodeInfo.t; targetInfo : NodeInfo.t }.
End Layer.

Module Reversed.
Record t := { missing : list string }.
End Reversed.

Module Problem.
Record t `{TypeChecker} := {
  mismatch : list string;
  missing : list string;
  reversed : option Reversed.t;
  targetInfo : NodeInfo.t
}.
End Problem.

Module Context.
Record t `{TypeChecker} := {
  captured : bool;
  errorType : ErrorType.t;
  functionName : option string;
  targetMap : InfoMap;
  sourceMap : option InfoMap;
  placeholderInfo : option NodeInfo.t
}.
End Context.

Module WhenContext.
Record t `{TypeChecker} := {
  problems : list Problem.t;
  context : Context.t;
  stack : list Layer.t;
  sourceName : string;
  targetName : string
}.
End WhenContext.

(** ** Effects of the catalog

    The callbacks [addChoice] and [suggest] append to two logs, and
    [context.cache] is a reference to the node cache: the three make up the
    store.  A computation ends normally, with a value, or throws a
    [TypeError]; either way it leaves the store as it was at that point. *)

Module Store.
Record t `{TypeChecker} := {
  choices : list Choice.t;
  suggestions : list Suggestion.t;
  cache : NodeCache
}.
End Store.

Inductive Completion `{TypeChecker} (A : Type) :=
| Normal (a : A) (s : Store.t)
| TypeError (s : Store.t).
Arguments Normal {_ A} a s.
Arguments TypeError {_ A} s.

Definition Eff `{TypeChecker} (A : Type) : Type := Store.t → Completion A.

Definition ret `{TypeChecker} {A} (a : A) : Eff A := λ s, Normal a s.

Definition bind `{TypeChecker} {A B} (m : Eff A) (k : A → Eff B) : Eff B :=
  λ s, match m s with
       | Normal a s' => k a s'
       | TypeError s' => TypeError s'
       end.

Definition throw `{TypeChecker} {A} : Eff A := λ s, TypeError s.

(** The store a computation leaves, however it ends. *)
Definition finalStore `{TypeChecker} {A} (c : Completion A) : Store.t :=
  match c with
  | Normal _ s => s
  | TypeError s => s
  end.

Declare Scope eff_scope.
Delimit Scope eff_scope with eff.
Notation "'do' x <- m ; k" := (bind m (λ x, k))
  (at level 10, x name, m at level 100, k at level 200) : eff_scope.
Notation "m ;; k" := (bind m (λ _, k))
  (at level 100, k at level 200, right associativity) : eff_scope.

(** Reading a property of a value that may be [undefined]. *)
Definition defined `{TypeChecker} {A} (o : option A) : Eff A :=
  match o with
  | Some a => ret a
  | None => throw
  end.

Definition readCache `{TypeChecker} : Eff NodeCache := λ s, Normal (Store.cache s) s.

Definition cache_saveNode `{TypeChecker} (d : option Declaration) : Eff nat :=
  λ s, let '(id, c) := saveNode (Store.cache s) d in
       Normal id {| Store.choices := Store.choices s;
                    Store.suggestions := Store.suggestions s;
                    Store.cache := c |}.

Definition addChoice `{TypeChecker} (title prompt : string) (nodeInfos : list Edit.t) : Eff unit :=
  λ s, Normal tt {| Store.choices :=
                      (Store.choices s ++
                       [ {| Choice.title := title; Choice.prompt := prompt;
                            Choice.edits := nodeInfos |} ])%list;
                    Store.suggestions := Store.suggestions s;
                    Store.cache := Store.cache s |}.

Definition suggest `{TypeChecker} (message link : string) : Eff unit :=
  λ s, Normal tt {| Store.choices := Store.choices s;
                    Store.suggestions :=
                      (Store.suggestions s ++
                       [ {| Suggestion.message := message; Suggestion.link := link |} ])%list;
                    Store.cache := Store.cache s |}.

(** [keys.forEach(key => nodeInfos.push(f key))], the pushed items in order. *)
Fixpoint forEach `{TypeChecker} {A B} (f : A → Eff B) (keys : list A) : Eff (list B) :=
  match keys with
  | [] => ret []
  | key :: keys' =>
      (do item <- f key ;
       do items <- forEach f keys' ;
       ret (item :: items))%eff
  end.

(** A string is truthy when it is defined and not empty. *)
Definition truthy (s : option string) : bool :=
  match s with
  | Some s => negb (bool_decide (s = ""))
  | None => false
  end.

(** ** The fix catalog *)

Section FixCatalog.
Context `{TypeChecker}.
Local Open Scope eff_scope.

(** when you use 'resource', but you should 'resource.resource' instead *)
Definition didYouMeanThisChildProperty (context : Context.t) (stack : list Layer.t)
  : Eff unit :=
  match Context.sourceMap context with
  | Some sourceMap =>
      do layer <- defined (last stack) ;
      let sourceInfo := Layer.sourceInfo layer in
      let targetInfo := Layer.targetInfo layer in
      let match_ :=
        find (λ source, negb (NodeInfo.isFunc source) &&
                        bool_decide (NodeInfo.typeText source = NodeInfo.typeText targetInfo))
             (sourceMap.*2) in
      match match_ with
      | Some match_ =>
          suggest
            ("Did you mean to use this " +:+
             chalk_magenta (NodeInfo.nodeText sourceInfo +:+ "." +:+ NodeInfo.nodeText match_) +:+
             " instead of this " +:+ chalk_magenta (NodeInfo.nodeText sourceInfo))
            (NodeInfo.nodeLink targetInfo)
      | None => ret tt
      end
  | None => ret tt
  end.

(** [context.sourceMap[key]]: throws when [context.sourceMap] is undefined. *)
Definition sourceMapAt (context : Context.t) (key : string) : Eff (option NodeInfo.t) :=
  do sourceMap <- defined (Context.sourceMap context) ;
  ret (getProp sourceMap key).

(** The node infos are objects shared by reference: the assignment to
    [targetInfo.declaredId] is seen by the edits that hold [targetInfo], all
    of which are built after it.  The infos of [context.sourceMap] and
    [context.targetMap] are taken to be other objects than [targetInfo]. *)
Definition addShapeChoice (prompt : string) (addChoice : string → list Edit.t → Eff unit)
    (whenContext : WhenContext.t) : Eff unit :=
  let problems := WhenContext.problems whenContext in
  let stack := WhenContext.stack whenContext in
  let context := WhenContext.context whenContext in
  do problem <- defined (head problems) ;
  do layer <- defined (head stack) ;
  let targetInfo := Layer.targetInfo layer in
  (* edge case *)
  didYouMeanThisChildProperty context stack ;;
  (* fix any property type mismatches *)
  do unions <-
    forEach (λ key,
      do primeInfo <- sourceMapAt context key ;
      ret {| Edit.primeInfo := primeInfo;
             Edit.otherInfo := getProp (Context.targetMap context) key;
             Edit.type := ReplacementType.unionType |})
      (Problem.mismatch problem) ;
  (* make any required target properties optional if missing in source *)
  let optionals : list Edit.t :=
    match Problem.reversed problem with
    | Some reversed =>
        (λ key, {| Edit.primeInfo := getProp (Context.targetMap context) key;
                   Edit.otherInfo := None;
                   Edit.type := ReplacementType.makeOptional |})
          <$> Reversed.missing reversed
    | None => []
    end in
  (* add any missing source properties as optional target properties *)
  do inserts <-
    (if bool_decide (Problem.missing problem ≠ []) then
       do cache <- readCache ;
       let targetType := getType cache (NodeInfo.typeId (Problem.targetInfo problem)) in
       do declarations <- defined (getDeclarations targetType) ;
       let declaration := head declarations in
       do declaredId <- cache_saveNode declaration ;
       let targetInfo := NodeInfo.set_declaredId declaredId targetInfo in
       forEach (λ key,
         do otherInfo <- sourceMapAt context key ;
         ret {| Edit.primeInfo := Some targetInfo;
                Edit.otherInfo := otherInfo;
                Edit.type := ReplacementType.insertOptionalProperty |})
         (Problem.missing problem)
     else ret []) ;
  let nodeInfos := (unions ++ optionals ++ inserts)%list in
  if bool_decide (nodeInfos ≠ []) then addChoice prompt nodeInfos else ret tt.

Definition whenMismatchedOrMissingTypes (whenContext : WhenContext.t) : Eff unit :=
  let problems := WhenContext.problems whenContext in
  let context := WhenContext.context whenContext in
  let stack := WhenContext.stack whenContext in
  let sourceName := WhenContext.sourceName whenContext in
  let targetName := WhenContext.targetName whenContext in
  if Context.captured context || bool_decide (problems = []) then ret tt else
  let errorType := Context.errorType context in
  let functionName := Context.functionName context in
  do layer <- defined (head stack) ;
  let sourceInfo := Layer.sourceInfo layer in
  let targetInfo := Layer.targetInfo layer in
  (* SIMPLE MISMATCH *)
  if decide (errorType = ErrorType.mismatch) then
    let suffix :=
      if truthy functionName
      then " in function " +:+ default "" functionName +:+ "()" else "" in
    let source := chalk_green (NodeInfo.nodeText sourceInfo) in
    let target := chalk_green (NodeInfo.nodeText targetInfo) in
    let addChoice :=
      addChoice ("Fix " +:+ targetName +:+ " " +:+ target +:+ " type !== " +:+
                 sourceName +:+ " " +:+ source +:+ " type" +:+ suffix +:+ "?") in
    addChoice ("Convert " +:+ sourceName +:+ " " +:+ source +:+ " type")
      [ {| Edit.primeInfo := Some sourceInfo; Edit.otherInfo := Some targetInfo;
           Edit.type := ReplacementType.convertType |} ] ;;
    addChoice ("Union " +:+ targetName +:+ " " +:+ target +:+ " type")
      [ {| Edit.primeInfo := Some targetInfo; Edit.otherInfo := Some sourceInfo;
           Edit.type := ReplacementType.unionType |} ]
  (* MAKES NO SENSE *)
  else if decide (errorType = ErrorType.simpleToObject) then
    if negb (truthy functionName)
    then suggest "Did you mean to use an object" (NodeInfo.nodeLink sourceInfo)
    else ret tt
  (* MAKES NO SENSE *)
  else if decide (errorType = ErrorType.objectToSimple) then
    if negb (truthy functionName)
    then suggest ("Did you mean to assign just one property of " +:+
                  chalk_greenBright (NodeInfo.fullText sourceInfo))
                 (NodeInfo.nodeLink sourceInfo)
    else ret tt
  (* PLACEHOLDER *)
  else if NodeInfo.isPlaceholder sourceInfo then
    let targetMap := Context.targetMap context in
    do placeholderInfo <- defined (Context.placeholderInfo context) ;
    let targetKey :=
      match NodeInfo.placeholderTarget placeholderInfo with
      | Some placeholderTarget => PlaceholderTarget.key placeholderTarget
      | None => NodeInfo.targetKey sourceInfo
      end in
    (* mismatched type *)
    match getProp targetMap (keyName targetKey) with
    | Some placeholderTargetInfo =>
        let source := chalk_green (NodeInfo.nodeText placeholderInfo) in
        let target := chalk_green (NodeInfo.nodeText placeholderTargetInfo) in
        do cache <- readCache ;
        let placeholderInfo :=
          NodeInfo.set_type (getType cache (NodeInfo.typeId placeholderInfo)) placeholderInfo in
        let placeholderTargetInfo :=
          NodeInfo.set_type (getType cache (NodeInfo.typeId placeholderTargetInfo))
                            placeholderTargetInfo in
        let addChoice :=
          addChoice ("Fix " +:+ targetName +:+ " " +:+ target +:+ " type !== " +:+
                     sourceName +:+ " " +:+ source +:+ "?") in
        addChoice ("Convert " +:+ sourceName +:+ " " +:+ source +:+ " type")
          [ {| Edit.primeInfo := Some placeholderInfo;
               Edit.otherInfo := Some placeholderTargetInfo;
               Edit.type := ReplacementType.convertType |} ] ;;
        addChoice ("Union " +:+ targetName +:+ " " +:+ target +:+ " type")
          [ {| Edit.primeInfo := Some placeholderTargetInfo;
               Edit.otherInfo := Some placeholderInfo;
               Edit.type := ReplacementType.unionType |} ]
    | None =>
        do placeholderTarget <- defined (NodeInfo.placeholderTarget placeholderInfo) ;
        do cache <- readCache ;
        let targetType := getType cache (PlaceholderTarget.typeId placeholderTarget) in
        do declarations <- defined (getDeclarations targetType) ;
        do declaration <- defined (head declarations) ;
        let target := chalk_green (default "literal" (escapedName declaration)) in
        do declaredId <- cache_saveNode (Some declaration) ;
        let targetInfo := NodeInfo.set_declaredId declaredId targetInfo in
        let addChoice := addChoice "Fix missing property?" in
        if decide (errorType = ErrorType.missingIndex) then
          addChoice ("Add this index to " +:+ target +:+ " map")
            [ {| Edit.primeInfo := Some targetInfo; Edit.otherInfo := Some placeholderInfo;
                 Edit.type := ReplacementType.insertProperty |} ]
        else
          addChoice ("Add optional property to " +:+ targetName +:+ " " +:+ target +:+ " type")
            [ {| Edit.primeInfo := Some targetInfo; Edit.otherInfo := Some placeholderInfo;
                 Edit.type := ReplacementType.insertOptionalProperty |} ]
    end
  (* SHAPE PROBLEMS *)
  else if decide (errorType = ErrorType.propMismatch) then
    let addChoice := addChoice "Fix mismatched property types?" in
    addShapeChoice "Union property types" addChoice whenContext
  else if decide (errorType = ErrorType.targetPropMissing) then
    let addChoice := addChoice "Fix missing properties?" in
    addShapeChoice ("Add properties as optional to " +:+ targetName) addChoice whenContext
  else if decide (errorType = ErrorType.bothMissing) then
    let addChoice := addChoice "Fix missing properties??" in
    addShapeChoice ("Add or convert properties in " +:+ targetName +:+ " to optional ")
                   addChoice whenContext
  else if decide (errorType = ErrorType.both) then
    let addChoice := addChoice "Fix missing and mismatched properties?" in
    addShapeChoice "Union property types and add properties as optional" addChoice whenContext
  else ret tt.

(** *** The edit lists the specification names

    These follow the words of the specification, to be compared with what
    [addShapeChoice] builds. *)

(** One [unionType] edit per key: the source property against the target
    property. *)
Definition unionTypePerKey (context : Context.t) (sourceMap : InfoMap) (keys : list string)
  : list Edit.t :=
  (λ key, {| Edit.primeInfo := getProp sourceMap key;
             Edit.otherInfo := getProp (Context.targetMap context) key;
             Edit.type := ReplacementType.unionType |}) <$> keys.

(** One [makeOptional] edit per key, on the target property. *)
Definition makeOptionalPerKey (context : Context.t) (keys : list string) : list Edit.t :=
  (λ key, {| Edit.primeInfo := getProp (Context.targetMap context) key;
             Edit.otherInfo := None;
             Edit.type := ReplacementType.makeOptional |}) <$> keys.

(** One [insertOptionalProperty] edit per key, inserting the source
    property into the declaration [declaredId] of the target. *)
Definition insertOptionalPropertyPerKey (targetInfo : NodeInfo.t) (declaredId : nat)
    (sourceMap : InfoMap) (keys : list string) : list Edit.t :=
  (λ key, {| Edit.primeInfo := Some (NodeInfo.set_declaredId declaredId targetInfo);
             Edit.otherInfo := getProp sourceMap key;
             Edit.type := ReplacementType.insertOptionalProperty |}) <$> keys.

(** The keys of [problem?.reversed?.missing]. *)
Definition reversedMissing (problem : Problem.t) : list string :=
  from_option Reversed.missing [] (Problem.reversed problem).

(** The declarations of the problem's target type, as the cache of the
    store resolves them. *)
Definition targetDeclarations (s : Store.t) (problem : Problem.t)
  : option (list Declaration) :=
  getDeclarations (getType (Store.cache s) (NodeInfo.typeId (Problem.targetInfo problem))).

(** The id [saveNode] gives the first of these declarations. *)
Definition targetDeclaredId (s : Store.t) (problem : Problem.t) : nat :=
  (saveNode (Store.cache s) (head (default [] (targetDeclarations s problem)))).1.

(** The single choice offered for a list of edits, none when it is empty. *)
Definition choiceFor (title prompt : string) (edits : list Edit.t) : list Choice.t :=
  match edits with
  | [] => []
  | _ => [ {| Choice.title := title; Choice.prompt := prompt; Choice.edits := edits |} ]
  end.

(** *** Notions to speak of what the handler adds to the store *)

(** The suggestion of [didYouMeanThisChildProperty], if it makes one. *)
Definition childSuggestion (context : Context.t) (stack : list Layer.t) : list Suggestion.t :=
  match Context.sourceMap context, last stack with
  | Some sourceMap, Some layer =>
      match find (λ source, negb (NodeInfo.isFunc source) &&
                            bool_decide (NodeInfo.typeText source
                                         = NodeInfo.typeText (Layer.targetInfo layer)))
                 (sourceMap.*2) with
      | Some match_ =>
          [ {| Suggestion.message :=
                 "Did you mean to use this " +:+
                 chalk_magenta (NodeInfo.nodeText (Layer.sourceInfo layer) +:+ "." +:+
                                NodeInfo.nodeText match_) +:+
                 " instead of this " +:+
                 chalk_magenta (NodeInfo.nodeText (Layer.sourceInfo layer));
               Suggestion.link := NodeInfo.nodeLink (Layer.targetInfo layer) |} ]
      | None => []
      end
  | _, _ => []
  end.

(** The store with some suggestions more. *)
Definition suggesting (suggestions : list Suggestion.t) (s : Store.t) : Store.t :=
  {| Store.choices := Store.choices s;
     Store.suggestions := (Store.suggestions s ++ suggestions)%list;
     Store.cache := Store.cache s |}.

(** What a computation added to the store it started from: at most so many
    choices, none of them without an edit, at most so many suggestions, and
    at most one node saved in the cache. *)
Definition addsAtMost (choices suggestions : nat) (s : Store.t) (c : Completion unit) : Prop :=
  ∃ newChoices newSuggestions,
    Store.choices (finalStore c) = (Store.choices s ++ newChoices)%list
    ∧ Store.suggestions (finalStore c) = (Store.suggestions s ++ newSuggestions)%list
    ∧ (length newChoices ≤ choices)%nat
    ∧ (length newSuggestions ≤ suggestions)%nat
    ∧ Forall (λ choice, Choice.edits choice ≠ []) newChoices
    ∧ (Store.cache (finalStore c) = Store.cache s
       ∨ ∃ declaration, Store.cache (finalStore c) = (saveNode (Store.cache s) declaration).2).

End FixCatalog.

(** ** The hound: from diagnostics to fixes *)

(** A semantic diagnostic of the compiler: [{ code, file, start }].  A source
    file is identified by its [fileName]; [file] and [start] may be
    undefined. *)
Module Diagnostic.
Record t := { code : Z; file : option string; start : option nat }.
End Diagnostic.

(** The imported functions [startFixing] calls.  [Node] is an AST node,
    [FileCache] what [cacheFile] builds for a file, [ProblemEntry] an element
    [{ problems, stack, context }] of [allProblems], and [World] the state of
    the terminal (the user at the prompt) and of the file system, which only
    the imported functions touch.  [showPromptFixes] returns [anyQuit]; the
    fixes the user chooses are recorded through the shared [fileCache]. *)
Class Hound := {
  Node : Type;
  FileCache : Type;
  ProblemEntry : Type;
  World : Type;
  cacheFile : string → FileCache;
  startToNode : FileCache → nat → option Node;
  getClosestTarget : Node → Node;
  getStart : Node → nat;
  syntaxKindName : Node → string;
  getNodeLink : Node → string;
  findProblems : Z → Node → Node → nat → FileCache → list ProblemEntry;
  showProblemTables : ProblemEntry → World → World;
  showTableNotes : ProblemEntry → World → World;
  showPromptFixes :
    ProblemEntry → gmap string FileCache * World → bool * (gmap string FileCache * World);
  applyFixes : gmap string FileCache → World → World
}.

(** errors we ignore *)
Definition ignoreTheseErrors : list Z := [6133; 2304; 2448; 2454]%Z.

Definition newline : string := String (Ascii.ascii_of_nat 10) "".

(** A number is truthy unless it is undefined or zero. *)
Definition truthyNumber (n : option nat) : option nat :=
  match n with
  | Some (S n) => Some (S n)
  | _ => None
  end.

(** The variables the loop over the diagnostics assigns. *)
Module Sniffed.
Record t `{Hound} := {
  hadProblem : bool;
  anyProblem : bool;
  fileCache : gmap string FileCache;
  missingSupport : list string;
  processedNodes : gset nat;
  allProblems : list ProblemEntry
}.
End Sniffed.

(** What a run leaves behind: the world, and the lines [startFixing] itself
    printed with [console.log]. *)
Module Run.
Record t `{Hound} := {
  fileCache : gmap string FileCache;
  world : World;
  console : list string
}.
End Run.

Section Fixing.
Context `{Hound}.

Definition missingSupportLine (errorCode : Z) (closestTargetNode : Node) (problemBeg : nat)
  : string :=
  "For error " +:+ pretty errorCode +:+ ", missing support " +:+
  syntaxKindName closestTargetNode +:+ " " +:+ pretty problemBeg.

Definition initially : Sniffed.t :=
  {| Sniffed.hadProblem := false; Sniffed.anyProblem := false;
     Sniffed.fileCache := ∅; Sniffed.missingSupport := [];
     Sniffed.processedNodes := ∅; Sniffed.allProblems := [] |}.

(** The body of [semanticDiagnostics.forEach]. *)
Definition forDiagnostic (fileNames : list string) (st : Sniffed.t) (d : Diagnostic.t)
  : Sniffed.t :=
  let errorCode := Diagnostic.code d in
  match Diagnostic.file d with
  | Some fileName =>
      if bool_decide (fileName ∈ fileNames) then
        let '(cache, fileCache) :=
          match Sniffed.fileCache st !! fileName with
          | Some cache => (cache, Sniffed.fileCache st)
          | None => (cacheFile fileName, <[fileName := cacheFile fileName]> (Sniffed.fileCache st))
          end in
        let st :=
          {| Sniffed.hadProblem := Sniffed.hadProblem st;
             Sniffed.anyProblem := Sniffed.anyProblem st;
             Sniffed.fileCache := fileCache;
             Sniffed.missingSupport := Sniffed.missingSupport st;
             Sniffed.processedNodes := Sniffed.processedNodes st;
             Sniffed.allProblems := Sniffed.allProblems st |} in
        match truthyNumber (Diagnostic.start d) with
        | Some start =>
            match startToNode cache start with
            | Some errorNode =>
                let st :=
                  if bool_decide (errorCode ∈ ignoreTheseErrors) then st else
                  let closestTargetNode := getClosestTarget errorNode in
                  let problemBeg := getStart closestTargetNode in
                  (* compiler might throw multiple errors for the same problem
                     -- only process one of them *)
                  if bool_decide (problemBeg ∈ Sniffed.processedNodes st) then
                    {| Sniffed.hadProblem := false;
                       Sniffed.anyProblem := Sniffed.anyProblem st;
                       Sniffed.fileCache := Sniffed.fileCache st;
                       Sniffed.missingSupport := Sniffed.missingSupport st;
                       Sniffed.processedNodes := Sniffed.processedNodes st;
                       Sniffed.allProblems := Sniffed.allProblems st |}
                  else
                    let problems :=
                      findProblems errorCode errorNode closestTargetNode problemBeg cache in
                    if bool_decide (problems ≠ []) then
                      {| Sniffed.hadProblem := true;
                         Sniffed.anyProblem := Sniffed.anyProblem st;
                         Sniffed.fileCache := Sniffed.fileCache st;
                         Sniffed.missingSupport := Sniffed.missingSupport st;
                         Sniffed.processedNodes := {[problemBeg]} ∪ Sniffed.processedNodes st;
                         Sniffed.allProblems := (Sniffed.allProblems st ++ problems)%list |}
                    else
                      {| Sniffed.hadProblem := false;
                         Sniffed.anyProblem := Sniffed.anyProblem st;
                         Sniffed.fileCache := Sniffed.fileCache st;
                         Sniffed.missingSupport :=
                           (Sniffed.missingSupport st ++
                            [ missingSupportLine errorCode closestTargetNode problemBeg;
                              getNodeLink closestTargetNode +:+ newline ])%list;
                         Sniffed.processedNodes := Sniffed.processedNodes st;
                         Sniffed.allProblems := Sniffed.allProblems st |} in
                {| Sniffed.hadProblem := Sniffed.hadProblem st;
                   Sniffed.anyProblem := Sniffed.anyProblem st || Sniffed.hadProblem st;
                   Sniffed.fileCache := Sniffed.fileCache st;
                   Sniffed.missingSupport := Sniffed.missingSupport st;
                   Sniffed.processedNodes := Sniffed.processedNodes st;
                   Sniffed.allProblems := Sniffed.allProblems st |}
            | None => st
            end
        | None => st
        end
      else st
  | None => st
  end.

(** [semanticDiagnostics.forEach(...)], from the initial values of the
    variables. *)
Definition sniff (semanticDiagnostics : list Diagnostic.t) (fileNames : list string)
  : Sniffed.t :=
  foldl (forDiagnostic fileNames) initially semanticDiagnostics.

(** Between two diagnostics, [hadProblem] implies [anyProblem], and every
    cache in [fileCache] is the one [cacheFile] builds for its file. *)
Definition sniffing (st : Sniffed.t) : Prop :=
  (Sniffed.hadProblem st = true → Sniffed.anyProblem st = true)
  ∧ ∀ fileName cache, Sniffed.fileCache st !! fileName = Some cache → cache = cacheFile fileName.

(** Two states of the loop agree on everything but [fileCache]. *)
Definition sameFindings (st1 st2 : Sniffed.t) : Prop :=
  Sniffed.hadProblem st1 = Sniffed.hadProblem st2
  ∧ Sniffed.anyProblem st1 = Sniffed.anyProblem st2
  ∧ Sniffed.missingSupport st1 = Sniffed.missingSupport st2
  ∧ Sniffed.processedNodes st1 = Sniffed.processedNodes st2
  ∧ Sniffed.allProblems st1 = Sniffed.allProblems st2.

Definition console_log (line : string) (run : Run.t) : Run.t :=
  {| Run.fileCache := Run.fileCache run; Run.world := Run.world run;
     Run.console := (Run.console run ++ [line])%list |}.

(** The body of the [for ... of] loop over [allProblems], up to the test
    of [anyQuit]: the value assigned to [anyQuit], and the run so far. *)
Definition presentProblem (problem : ProblemEntry) (run : Run.t) : bool * Run.t :=
  let world := showProblemTables problem (Run.world run) in
  let world := showTableNotes problem world in
  let '(anyQuit, (fileCache, world)) :=
    showPromptFixes problem (Run.fileCache run, world) in
  (anyQuit,
   console_log (newline +:+ newline)
     {| Run.fileCache := fileCache; Run.world := world;
        Run.console := Run.console run |}).

(** show problems, prompt for fixes: the loop is left by [break] as soon as
    a prompt answers [anyQuit].  The result is the last value assigned to
    [anyQuit]. *)
Fixpoint promptForFixes (allProblems : list ProblemEntry) (run : Run.t) : bool * Run.t :=
  match allProblems with
  | [] => (false, run)
  | problem :: rest =>
      let '(anyQuit, run) := presentProblem problem run in
      if anyQuit then (true, run) else promptForFixes rest run
  end.

(** The run after the loop body ran on each of [shown], in order. *)
Definition presentEach (shown : list ProblemEntry) (run : Run.t) : Run.t :=
  foldl (λ run problem, (presentProblem problem run).2) run shown.

(** The run when the prompt loop starts: [console.log] was called once and
    [fileCache] holds the cache of every file sniffed. *)
Definition beforePrompts (st : Sniffed.t) (world : World) : Run.t :=
  {| Run.fileCache := Sniffed.fileCache st; Run.world := world;
     Run.console := [newline +:+ newline] |}.

Definition startFixing (semanticDiagnostics : list Diagnostic.t) (fileNames : list string)
    (world : World) : Run.t :=
  let run :=
    console_log (newline +:+ newline)
      {| Run.fileCache := ∅; Run.world := world; Run.console := [] |} in
  let st := sniff semanticDiagnostics fileNames in
  let run :=
    {| Run.fileCache := Sniffed.fileCache st; Run.world := Run.world run;
       Run.console := Run.console run |} in
  (* show problems, prompt for fixes *)
  let '(anyQuit, run) := promptForFixes (Sniffed.allProblems st) run in
  if anyQuit then run else
  (* apply fixes, save files *)
  let run :=
    if Sniffed.anyProblem st
    then {| Run.fileCache := Run.fileCache run;
            Run.world := applyFixes (Run.fileCache run) (Run.world run);
            Run.console := Run.console run |}
    else run in
  (* show things we didn't know how to process *)
  let run :=
    if bool_decide (Sniffed.missingSupport st ≠ [])
    then foldl (λ run miss, console_log miss run) run (Sniffed.missingSupport st)
    else if negb (Sniffed.anyProblem st)
         then console_log (newline +:+ "--no squirrels--") run
         else run in
  console_log
    (newline +:+ newline +:+
     "--------------------------------------------------------------------------")
    run.

(** *** Notions to speak of the loop over the diagnostics *)

(** The node a diagnostic points at, with the name of its file: none when the
    diagnostic has no file or a file outside [fileNames], when its start is
    undefined or zero, or when no node starts there. *)
Definition errorNodeOf (fileNames : list string) (d : Diagnostic.t) : option (string * Node) :=
  match Diagnostic.file d with
  | Some fileName =>
      if bool_decide (fileName ∈ fileNames) then
        match truthyNumber (Diagnostic.start d) with
        | Some start => (λ errorNode, (fileName, errorNode)) <$> startToNode (cacheFile fileName) start
        | None => None
        end
      else None
  | None => None
  end.

(** [getClosestTarget(checker, errorNode).getStart()] *)
Definition problemBegOf (errorNode : Node) : nat := getStart (getClosestTarget errorNode).

(** Two states of the loop hold the same findings: they agree on
    [anyProblem], [missingSupport], [processedNodes] and [allProblems]. *)
Definition sameOutcome (st1 st2 : Sniffed.t) : Prop :=
  Sniffed.anyProblem st1 = Sniffed.anyProblem st2
  ∧ Sniffed.missingSupport st1 = Sniffed.missingSupport st2
  ∧ Sniffed.processedNodes st1 = Sniffed.processedNodes st2
  ∧ Sniffed.allProblems st1 = Sniffed.allProblems st2.

(** What the end of a run prints after the prompts, when no prompt quit. *)
Definition closingLines (st : Sniffed.t) : list string :=
  ((if bool_decide (Sniffed.missingSupport st ≠ [])
    then Sniffed.missingSupport st
    else if Sniffed.anyProblem st then [] else [newline +:+ "--no squirrels--"]) ++
   [newline +:+ newline +:+
    "--------------------------------------------------------------------------"])%list.

End Fixing.

(** ** The patch engine *)

(** Modelled from the spec: the Patch Engine ([apply], section 4.5), whose
    code ([applyFixes] of [promptFixes/showFixes]) is not among the sources.
    Edits arrive resolved to triples [(startOffset, endOffset,
    replacementText)] over the original text, ranges being half open.  Per
    file the triples are sorted by ascending start offset, the order of
    registration breaking ties; a triple whose range intersects the range of
    the triple kept before it is dropped and reported; the others are written
    in one pass from left to right, an offset delta moving the write
    position. *)
Module PatchEngine.

Record Triple := {
  startOffset : nat;
  endOffset : nat;
  replacementText : string
}.

#[global] Instance triple_eq_dec : EqDecision Triple.
Proof. solve_decision. Defined.

Definition startsNoLater (a b : Triple) : Prop := (startOffset a ≤ startOffset b)%nat.

#[global] Instance startsNoLater_dec : RelDecision startsNoLater.
Proof. intros a b. unfold startsNoLater. apply _. Defined.

(** Sort triples by ascending start offset; the sort is stable, as
    [Array.prototype.sort] is. *)
Fixpoint insertByStart (triple : Triple) (sorted : list Triple) : list Triple :=
  match sorted with
  | [] => [triple]
  | next :: rest =>
      if decide (startsNoLater triple next)
      then triple :: sorted
      else next :: insertByStart triple rest
  end.

Definition sortByStart (triples : list Triple) : list Triple :=
  foldr insertByStart [] triples.

(** Two half-open ranges intersect. *)
Definition intersects (a b : Triple) : Prop :=
  (startOffset a < endOffset b)%nat ∧ (startOffset b < endOffset a)%nat.

#[global] Instance intersects_dec : RelDecision intersects.
Proof. intros a b. unfold intersects. apply _. Defined.

(** Detect overlap: the triples kept and the triples dropped, [previous]
    being the triple kept last. *)
Fixpoint detectOverlap (previous : option Triple) (sorted : list Triple)
  : list Triple * list Triple :=
  match sorted with
  | [] => ([], [])
  | triple :: rest =>
      let overlap :=
        match previous with
        | Some previous => bool_decide (intersects previous triple)
        | None => false
        end in
      if overlap
      then let '(kept, dropped) := detectOverlap previous rest in
           (kept, triple :: dropped)
      else let '(kept, dropped) := detectOverlap (Some triple) rest in
           (triple :: kept, dropped)
  end.

(** [text] with the range from [from] to [to] replaced by [replacement]. *)
Definition splice (text : string) (from to : nat) (replacement : string) : string :=
  String.substring 0 from text +:+ replacement +:+
  String.substring to (String.length text - to) text.

(** The single left-to-right pass: ranges are those of the original text,
    [delta] is what the replacements written so far added to it. *)
Fixpoint write (kept : list Triple) (delta : Z) (text : string) : string :=
  match kept with
  | [] => text
  | triple :: rest =>
      let from := Z.to_nat (Z.of_nat (startOffset triple) + delta) in
      let to := Z.to_nat (Z.of_nat (endOffset triple) + delta) in
      let grown :=
        (Z.of_nat (String.length (replacementText triple))
         - (Z.of_nat (endOffset triple) - Z.of_nat (startOffset triple)))%Z in
      write rest (delta + grown)%Z (splice text from to (replacementText triple))
  end.

(** One file: the patched text and the unapplied edits to warn about. *)
Definition patchFile (text : string) (pending : list Triple) : string * list Triple :=
  let '(kept, dropped) := detectOverlap None (sortByStart pending) in
  (write kept 0 text, dropped).

(** [apply(pendingEditsByFile)]: the new text of every file with pending
    edits. *)
Definition apply (buffers : gmap string string) (pendingEditsByFile : gmap string (list Triple))
  : gmap string string :=
  map_zip_with (λ text pending, (patchFile text pending).1) buffers pendingEditsByFile.


(** The triples of a list are pairwise non-overlapping. *)
Fixpoint nonOverlapping (triples : list Triple) : Prop :=
  match triples with
  | [] => True
  | triple :: rest => Forall (λ other, ¬ intersects triple other) rest ∧ nonOverlapping rest
  end.

#[global] Instance nonOverlapping_dec triples : Decision (nonOverlapping triples).
Proof. induction triples; simpl; apply _. Defined.


End PatchEngine.

(** ** Fixtures

    A small checker and a small project, to run the definitions above on
    concrete inputs. *)
Module Fixture.

(** A type is the list of its declarations (none for a type without a
    symbol), a declaration its optional name, and the node cache the list
    of the nodes saved so far, the id of a node being its index.  Type id
    [0] has no symbol; every other type is declared once, as [Target]. *)
#[global] Instance checker : TypeChecker := {|
  TsType := option (list (option string));
  Declaration := option string;
  NodeCache := list (option (option string));
  getType := λ _ typeId, match typeId with 0 => None | _ => Some [Some "Target"] end;
  getDeclarations := λ ty, ty;
  escapedName := λ d, d;
  saveNode := λ cache d, (length cache, (cache ++ [d])%list);
  chalk_green := λ s, "<green>" +:+ s +:+ "</green>";
  chalk_greenBright := λ s, "<greenBright>" +:+ s +:+ "</greenBright>";
  chalk_magenta := λ s, "<magenta>" +:+ s +:+ "</magenta>"
|}.

Definition info (text typeText : string) (typeId : nat) (isPlaceholder : bool)
  : NodeInfo.t :=
  {| NodeInfo.nodeText := text; NodeInfo.fullText := text;
     NodeInfo.typeText := typeText; NodeInfo.nodeLink := text +:+ ".ts:1";
     NodeInfo.typeId := typeId; NodeInfo.isFunc := false;
     NodeInfo.isPlaceholder := isPlaceholder; NodeInfo.targetKey := None;
     NodeInfo.placeholderTarget := None; NodeInfo.declaredId := None;
     NodeInfo.type := None |}.

Definition source : NodeInfo.t := info "src" "{ a: number }" 1 false.
Definition target : NodeInfo.t := info "tgt" "{ a: string }" 2 false.
Definition placeholder : NodeInfo.t :=
  {| NodeInfo.nodeText := "slot"; NodeInfo.fullText := "slot";
     NodeInfo.typeText := "number"; NodeInfo.nodeLink := "slot.ts:1";
     NodeInfo.typeId := 3; NodeInfo.isFunc := false;
     NodeInfo.isPlaceholder := true; NodeInfo.targetKey := None;
     NodeInfo.placeholderTarget :=
       Some {| PlaceholderTarget.key := Some "slot"; PlaceholderTarget.typeId := 2 |};
     NodeInfo.declaredId := None; NodeInfo.type := None |}.

Definition sourceA : NodeInfo.t := info "a" "number" 4 false.
Definition sourceC : NodeInfo.t := info "c" "number" 5 false.
Definition targetA : NodeInfo.t := info "a" "string" 6 false.
Definition targetB : NodeInfo.t := info "b" "boolean" 7 false.

Definition emptyStore : Store.t :=
  {| Store.choices := []; Store.suggestions := []; Store.cache := [] |}.

(** A problem of the given kind between [src] and [tgt]. *)
Definition whenContext (errorType : ErrorType.t) (functionName : option string)
    (sourceIsPlaceholder : bool) (mismatch missing reversedMissing : list string)
  : WhenContext.t :=
  {| WhenContext.problems :=
       [ {| Problem.mismatch := mismatch; Problem.missing := missing;
            Problem.reversed := Some {| Reversed.missing := reversedMissing |};
            Problem.targetInfo := target |} ];
     WhenContext.context :=
       {| Context.captured := false; Context.errorType := errorType;
          Context.functionName := functionName;
          Context.targetMap := [("a", targetA); ("b", targetB)];
          Context.sourceMap := Some [("a", sourceA); ("c", sourceC)];
          Context.placeholderInfo := Some placeholder |};
     WhenContext.stack :=
       [ {| Layer.sourceInfo :=
              if sourceIsPlaceholder then placeholder else source;
            Layer.targetInfo := target |} ];
     WhenContext.sourceName := "Source"; WhenContext.targetName := "Target" |}.

(** The choices and suggestions of a run of the catalog, when it ends
    normally. *)
Definition outcome (whenContext : WhenContext.t)
  : option (list Choice.t * list Suggestion.t) :=
  match whenMismatchedOrMissingTypes whenContext emptyStore with
  | Normal _ s => Some (Store.choices s, Store.suggestions s)
  | TypeError _ => None
  end.

(** A problem given in full: its kind, the source map, the target of the
    problem, the placeholder and the three key lists. *)
Definition problemOf (errorType : ErrorType.t) (sourceMap : option InfoMap)
    (problemTarget : NodeInfo.t) (placeholderInfo : option NodeInfo.t)
    (sourceInfo : NodeInfo.t) (mismatch missing reversedMissing : list string)
  : WhenContext.t :=
  {| WhenContext.problems :=
       [ {| Problem.mismatch := mismatch; Problem.missing := missing;
            Problem.reversed := Some {| Reversed.missing := reversedMissing |};
            Problem.targetInfo := problemTarget |} ];
     WhenContext.context :=
       {| Context.captured := false; Context.errorType := errorType;
          Context.functionName := None;
          Context.targetMap := [("a", targetA); ("b", targetB)];
          Context.sourceMap := sourceMap;
          Context.placeholderInfo := placeholderInfo |};
     WhenContext.stack :=
       [ {| Layer.sourceInfo := sourceInfo; Layer.targetInfo := target |} ];
     WhenContext.sourceName := "Source"; WhenContext.targetName := "Target" |}.

(** A target whose type has no symbol, a placeholder for the property [a] of
    the target, a placeholder whose target type has no symbol, and a source
    property of the type of the target. *)
Definition undeclared : NodeInfo.t := info "tgt" "{ a: string }" 0 false.

Definition placeholderOf (key : string) (typeId : nat) : NodeInfo.t :=
  {| NodeInfo.nodeText := "slot"; NodeInfo.fullText := "slot";
     NodeInfo.typeText := "number"; NodeInfo.nodeLink := "slot.ts:1";
     NodeInfo.typeId := 3; NodeInfo.isFunc := false;
     NodeInfo.isPlaceholder := true; NodeInfo.targetKey := None;
     NodeInfo.placeholderTarget :=
       Some {| PlaceholderTarget.key := Some key; PlaceholderTarget.typeId := typeId |};
     NodeInfo.declaredId := None; NodeInfo.type := None |}.

Definition sourceInner : NodeInfo.t := info "inner" "{ a: string }" 8 false.

(** *** A project for the hound

    Every positive offset of every file starts a node, which is its own
    closest target.  Error 2322 is classified, as one problem whose single
    fix replaces the character at the offset by [#]; no other error is.
    The user answers the prompts from a list, and skips when the list is
    exhausted; a selected fix is appended to the pending edits of its file.
    [applyFixes] patches every file with the patch engine. *)
Inductive Answer := Selected (candidateIndex : nat) | Skipped | Quit.

Record Cache := { fileName : string; pendingEdits : list PatchEngine.Triple }.

Record Entry := {
  entryFile : string;
  entryOffset : nat;
  candidates : list (list PatchEngine.Triple)
}.

Record Outside := { answers : list Answer; disk : gmap string string }.

Definition hash (offset : nat) : PatchEngine.Triple :=
  {| PatchEngine.startOffset := offset; PatchEngine.endOffset := S offset;
     PatchEngine.replacementText := "#" |}.

Definition select (entry : Entry) (candidateIndex : nat) (fileCache : gmap string Cache)
  : gmap string Cache :=
  match candidates entry !! candidateIndex with
  | Some edits =>
      alter (λ cache, {| fileName := fileName cache;
                         pendingEdits := (pendingEdits cache ++ edits)%list |})
            (entryFile entry) fileCache
  | None => fileCache
  end.

(** Modelled from the spec: [showPromptFixes] and [applyFixes] of
    [promptFixes/showFixes] are not among the sources.  The prompt follows
    the resolution loop (section 4.4): a selected candidate has its edits
    appended, in order, to the pending edits of its file, a skip changes
    nothing, and a quit is reported as [anyQuit]; [applyFixes] is the patch
    engine (section 4.5) run on the pending edits of every file. *)
#[global] Instance hound : Hound := {|
  Node := string * nat;
  FileCache := Cache;
  ProblemEntry := Entry;
  World := Outside;
  cacheFile := λ name, {| fileName := name; pendingEdits := [] |};
  startToNode := λ cache start, Some (fileName cache, start);
  getClosestTarget := λ node, node;
  getStart := λ node, node.2;
  syntaxKindName := λ _, "Identifier";
  getNodeLink := λ node, node.1 +:+ ":" +:+ pretty node.2;
  findProblems := λ errorCode errorNode closestTargetNode problemBeg cache,
    if decide (errorCode = 2322%Z)
    then [ {| entryFile := fileName cache; entryOffset := problemBeg;
              candidates := [[hash problemBeg]] |} ]
    else [];
  showProblemTables := λ _ world, world;
  showTableNotes := λ _ world, world;
  showPromptFixes := λ entry '(fileCache, world),
    match answers world with
    | [] => (false, (fileCache, world))
    | answer :: rest =>
        let world := {| answers := rest; disk := disk world |} in
        match answer with
        | Selected candidateIndex => (false, (select entry candidateIndex fileCache, world))
        | Skipped => (false, (fileCache, world))
        | Quit => (true, (fileCache, world))
        end
    end;
  applyFixes := λ fileCache world,
    {| answers := answers world;
       disk := PatchEngine.apply (disk world) (pendingEdits <$> fileCache) ∪ disk world |}
|}.

Definition diagnostic (code : Z) (file : string) (start : nat) : Diagnostic.t :=
  {| Diagnostic.code := code; Diagnostic.file := Some file; Diagnostic.start := Some start |}.

Definition project (answers : list Answer) : Outside :=
  {| answers := answers;
     disk := {[ "a.ts" := "0123456789"; "b.ts" := "abcdefghij" ]} |}.


End Fixture.

(** * Properties *)

(** ** The fix catalog *)

Section CatalogProofs.
Context `{TypeChecker}.
Local Open Scope eff_scope.

Lemma forEach_pure {A B} (f : A → Eff B) (g : A → B) (keys : list A) (s : Store.t) :
  (∀ key, f key s = Normal (g key) s) →
  forEach f keys s = Normal (g <$> keys) s.
Proof.
  intros Hf. induction keys as [|key keys IH]; simpl; [done|].
  unfold bind. by rewrite Hf, IH.
Qed.

Lemma didYouMeanThisChildProperty_choices context layer rest s :
  ∃ s', didYouMeanThisChildProperty context (layer :: rest) s = Normal tt s'
        ∧ Store.choices s' = Store.choices s ∧ Store.cache s' = Store.cache s.
Proof.
  unfold didYouMeanThisChildProperty.
  destruct (Context.sourceMap context) as [sourceMap|]; [|by eexists].
  destruct (last_is_Some (layer :: rest)) as [_ [l Hl]]; [done|].
  unfold bind. rewrite Hl. simpl.
  destruct (find _ _); by eexists.
Qed.

(** What [addShapeChoice] offers, whatever the kind of the problem. *)
Lemma addShapeChoice_choices prompt title whenContext s problem problems layer rest sourceMap :
  WhenContext.problems whenContext = problem :: problems →
  WhenContext.stack whenContext = layer :: rest →
  Context.sourceMap (WhenContext.context whenContext) = Some sourceMap →
  (Problem.missing problem ≠ [] → is_Some (targetDeclarations s problem)) →
  ∃ s', addShapeChoice prompt (addChoice title) whenContext s = Normal tt s'
    ∧ Store.choices s' =
      (Store.choices s ++
       choiceFor title prompt
         (unionTypePerKey (WhenContext.context whenContext) sourceMap (Problem.mismatch problem) ++
          makeOptionalPerKey (WhenContext.context whenContext) (reversedMissing problem) ++
          insertOptionalPropertyPerKey (Layer.targetInfo layer)
            (targetDeclaredId s problem) sourceMap (Problem.missing problem)))%list.
Proof.
  intros Hproblems Hstack HsourceMap Hdecl.
  destruct (didYouMeanThisChildProperty_choices (WhenContext.context whenContext) layer rest s)
    as (s1 & Hdid & Hchoices & Hcache).
  unfold addShapeChoice. rewrite Hproblems, Hstack. simpl.
  unfold bind at 1. simpl. unfold bind at 1. simpl.
  unfold bind at 1. rewrite Hdid.
  unfold bind at 1.
  rewrite (forEach_pure _
    (λ key, {| Edit.primeInfo := getProp sourceMap key;
               Edit.otherInfo := getProp (Context.targetMap (WhenContext.context whenContext)) key;
               Edit.type := ReplacementType.unionType |}));
    [|by intros; unfold sourceMapAt, bind; rewrite HsourceMap].
  fold (unionTypePerKey (WhenContext.context whenContext) sourceMap (Problem.mismatch problem)).
  assert (Hopt : match Problem.reversed problem with
                 | Some reversed =>
                     (λ key, {| Edit.primeInfo := getProp (Context.targetMap (WhenContext.context whenContext)) key;
                                Edit.otherInfo := None;
                                Edit.type := ReplacementType.makeOptional |})
                       <$> Reversed.missing reversed
                 | None => []
                 end = makeOptionalPerKey (WhenContext.context whenContext) (reversedMissing problem)).
  { unfold makeOptionalPerKey, reversedMissing. by destruct (Problem.reversed problem). }
  rewrite Hopt. clear Hopt.
  case_bool_decide as Hmissing.
  - destruct (Hdecl Hmissing) as [declarations Hdeclarations].
    unfold targetDeclaredId. rewrite Hdeclarations.
    change (default [] (Some declarations)) with declarations.
    unfold targetDeclarations in Hdeclarations.
    unfold bind at 1. unfold bind at 1. unfold readCache. rewrite Hcache.
    unfold bind at 1. rewrite Hdeclarations.
    unfold defined, ret at 1, bind at 1, cache_saveNode. rewrite Hcache.
    destruct (saveNode (Store.cache s) (head declarations)) as [declaredId cache'] eqn:Hsave.
    rewrite (forEach_pure _
      (λ key, {| Edit.primeInfo := Some (NodeInfo.set_declaredId declaredId (Layer.targetInfo layer));
                 Edit.otherInfo := getProp sourceMap key;
                 Edit.type := ReplacementType.insertOptionalProperty |}));
      [|by intros; unfold sourceMapAt, bind; rewrite HsourceMap].
    fold (insertOptionalPropertyPerKey (Layer.targetInfo layer) declaredId sourceMap
            (Problem.missing problem)).
    assert (Hne : insertOptionalPropertyPerKey (Layer.targetInfo layer) declaredId sourceMap
                    (Problem.missing problem) ≠ []).
    { unfold insertOptionalPropertyPerKey. intros Hnil. by apply fmap_nil_inv in Hnil. }
    cbn [fst].
    rewrite bool_decide_eq_true_2.
    2:{ intros Hnil. apply app_eq_nil in Hnil as [_ Hnil].
        by apply app_eq_nil in Hnil as [_ Hnil]. }
    eexists. split; [done|]. cbn [Store.choices]. rewrite Hchoices.
    unfold choiceFor.
    destruct (_ ++ _ ++ _)%list eqn:Hedits; [|done].
    apply app_eq_nil in Hedits as [_ Hnil].
    by apply app_eq_nil in Hnil as [_ Hnil].
  - rewrite Hmissing.
    unfold ret at 1, bind at 1. cbn [insertOptionalPropertyPerKey fmap list_fmap].
    case_bool_decide as Hedits.
    + eexists. split; [done|]. cbn [Store.choices]. rewrite Hchoices.
      unfold choiceFor. by destruct (_ ++ _ ++ _)%list.
    + rewrite Hedits.
      eexists. split; [done|]. cbn [choiceFor]. by rewrite app_nil_r.
Qed.

(** Past the guard of [whenMismatchedOrMissingTypes]. *)
Ltac enter Hcaptured Hproblems Hstack :=
  unfold whenMismatchedOrMissingTypes;
  rewrite Hcaptured, Hstack;
  rewrite (bool_decide_eq_false_2 _ Hproblems);
  cbn [orb]; unfold bind at 1; cbn [head defined ret].


(** The shape cases are reached by problems that are neither simple
    mismatches nor scalar/object confusions nor placeholders. *)
Ltac shape_case HerrorType Hplaceholder :=
  rewrite HerrorType, Hplaceholder;
  repeat (rewrite decide_False by discriminate);
  rewrite decide_True by done.

(** C2, amended.  For a problem of kind [propMismatch] whose source is not
    a placeholder, the single choice offered carries one [unionType] edit
    per key of [problem.mismatch], followed by one [makeOptional] edit per
    key of [problem.reversed.missing] and one [insertOptionalProperty] edit
    per key of [problem.missing]; it carries exactly the [unionType] edits
    when these two key lists are empty.  No choice is offered when there
    is no edit. *)
Theorem propMismatch_edits whenContext s problem problems layer rest sourceMap :
  Context.captured (WhenContext.context whenContext) = false →
  WhenContext.problems whenContext = problem :: problems →
  WhenContext.stack whenContext = layer :: rest →
  Context.errorType (WhenContext.context whenContext) = ErrorType.propMismatch →
  NodeInfo.isPlaceholder (Layer.sourceInfo layer) = false →
  Context.sourceMap (WhenContext.context whenContext) = Some sourceMap →
  (Problem.missing problem ≠ [] → is_Some (targetDeclarations s problem)) →
  ∃ s', whenMismatchedOrMissingTypes whenContext s = Normal tt s'
    ∧ Store.choices s' =
      (Store.choices s ++
       choiceFor "Fix mismatched property types?" "Union property types"
         (unionTypePerKey (WhenContext.context whenContext) sourceMap (Problem.mismatch problem) ++
          makeOptionalPerKey (WhenContext.context whenContext) (reversedMissing problem) ++
          insertOptionalPropertyPerKey (Layer.targetInfo layer)
            (targetDeclaredId s problem) sourceMap (Problem.missing problem)))%list
    ∧ (reversedMissing problem = [] → Problem.missing problem = [] →
       Store.choices s' =
         (Store.choices s ++
          choiceFor "Fix mismatched property types?" "Union property types"
            (unionTypePerKey (WhenContext.context whenContext) sourceMap
               (Problem.mismatch problem)))%list).
Proof.
  intros Hcaptured Hproblems Hstack HerrorType Hplaceholder HsourceMap Hdecl.
  destruct (addShapeChoice_choices "Union property types" "Fix mismatched property types?"
              whenContext s problem problems layer rest sourceMap)
    as (s' & Hrun & Hchoices); [done..|].
  exists s'. split; [|split; [done|]].
  - assert (Hsome : WhenContext.problems whenContext ≠ []) by (by rewrite Hproblems).
    enter Hcaptured Hsome Hstack.
    by shape_case HerrorType Hplaceholder.
  - intros Hreversed Hmissing. rewrite Hchoices, Hreversed, Hmissing.
    cbn [makeOptionalPerKey insertOptionalPropertyPerKey fmap list_fmap app].
    by rewrite app_nil_r.
Qed.

(** C6, amended.  For a problem of kind [bothMissing] whose source is not a
    placeholder, the single choice offered carries one [unionType] edit per
    key of [problem.mismatch], then one [makeOptional] edit per key of
    [problem.reversed.missing] and one [insertOptionalProperty] edit per key
    of [problem.missing]; it carries exactly the [makeOptional] and
    [insertOptionalProperty] edits when [problem.mismatch] is empty. *)
Theorem bothMissing_edits whenContext s problem problems layer rest sourceMap :
  Context.captured (WhenContext.context whenContext) = false →
  WhenContext.problems whenContext = problem :: problems →
  WhenContext.stack whenContext = layer :: rest →
  Context.errorType (WhenContext.context whenContext) = ErrorType.bothMissing →
  NodeInfo.isPlaceholder (Layer.sourceInfo layer) = false →
  Context.sourceMap (WhenContext.context whenContext) = Some sourceMap →
  (Problem.missing problem ≠ [] → is_Some (targetDeclarations s problem)) →
  let title := "Fix missing properties??" in
  let prompt :=
    "Add or convert properties in " +:+ WhenContext.targetName whenContext +:+
    " to optional " in
  ∃ s', whenMismatchedOrMissingTypes whenContext s = Normal tt s'
    ∧ Store.choices s' =
      (Store.choices s ++
       choiceFor title prompt
         (unionTypePerKey (WhenContext.context whenContext) sourceMap (Problem.mismatch problem) ++
          makeOptionalPerKey (WhenContext.context whenContext) (reversedMissing problem) ++
          insertOptionalPropertyPerKey (Layer.targetInfo layer)
            (targetDeclaredId s problem) sourceMap (Problem.missing problem)))%list
    ∧ (Problem.mismatch problem = [] →
       Store.choices s' =
         (Store.choices s ++
          choiceFor title prompt
            (makeOptionalPerKey (WhenContext.context whenContext) (reversedMissing problem) ++
             insertOptionalPropertyPerKey (Layer.targetInfo layer)
               (targetDeclaredId s problem) sourceMap (Problem.missing problem)))%list).
Proof.
  intros Hcaptured Hproblems Hstack HerrorType Hplaceholder HsourceMap Hdecl title prompt.
  destruct (addShapeChoice_choices prompt title
              whenContext s problem problems layer rest sourceMap)
    as (s' & Hrun & Hchoices); [done..|].
  exists s'. split; [|split; [done|]].
  - assert (Hsome : WhenContext.problems whenContext ≠ []) by (by rewrite Hproblems).
    enter Hcaptured Hsome Hstack.
    by shape_case HerrorType Hplaceholder.
  - intros Hmismatch. by rewrite Hchoices, Hmismatch.
Qed.

(** C7, amended.  For a problem of kind [simpleToObject] or
    [objectToSimple] no choice is ever offered, and one suggestion, located
    at the source node, is made exactly when the problem has no function
    name; none is made for a problem inside a function. *)
Theorem scalar_object_confusion_only_suggests whenContext s :
  Context.errorType (WhenContext.context whenContext) = ErrorType.simpleToObject
  ∨ Context.errorType (WhenContext.context whenContext) = ErrorType.objectToSimple →
  Store.choices (finalStore (whenMismatchedOrMissingTypes whenContext s)) = Store.choices s
  ∧ ∀ layer rest,
      Context.captured (WhenContext.context whenContext) = false →
      WhenContext.problems whenContext ≠ [] →
      WhenContext.stack whenContext = layer :: rest →
      ∃ s', whenMismatchedOrMissingTypes whenContext s = Normal tt s'
        ∧ if truthy (Context.functionName (WhenContext.context whenContext))
          then Store.suggestions s' = Store.suggestions s
          else ∃ message,
            Store.suggestions s' =
              (Store.suggestions s ++
               [ {| Suggestion.message := message;
                    Suggestion.link := NodeInfo.nodeLink (Layer.sourceInfo layer) |} ])%list.
Proof.
  intros HerrorType. split.
  - unfold whenMismatchedOrMissingTypes.
    destruct (Context.captured _ || bool_decide _); [done|].
    unfold bind. destruct (head (WhenContext.stack whenContext)) as [layer|]; [cbn|done].
    destruct HerrorType as [-> | ->];
      repeat (rewrite decide_False by discriminate);
      rewrite decide_True by done;
      by destruct (negb _).
  - intros layer rest Hcaptured Hproblems Hstack.
    destruct HerrorType as [HerrorType|HerrorType];
      enter Hcaptured Hproblems Hstack; rewrite HerrorType;
      repeat (rewrite decide_False by discriminate);
      rewrite decide_True by done;
      destruct (truthy _); cbn [negb];
      eexists; (split; [reflexivity|]); try done; by eexists.
Qed.


End CatalogProofs.

(** ** The hound *)

Section FixingProofs.
Context `{Hound}.

Lemma sniffing_initially : sniffing initially.
Proof. split; [done|]. intros fileName cache. cbn. by rewrite lookup_empty. Qed.

Lemma sniffing_forDiagnostic fileNames st d :
  sniffing st → sniffing (forDiagnostic fileNames st d).
Proof.
  intros [Hhad Hcache].
  assert (Hinsert : ∀ name fileName cache,
            <[name := cacheFile name]> (Sniffed.fileCache st) !! fileName = Some cache →
            cache = cacheFile fileName).
  { intros name fileName cache. rewrite lookup_insert.
    case_decide; [intros [= <-]; by subst|apply Hcache]. }
  unfold forDiagnostic. split.
  - repeat case_match; simplify_eq; cbn; try done;
      intros Hnow; rewrite ?Hnow; apply orb_true_r.
  - repeat case_match; simplify_eq; cbn; try done; by apply Hinsert.
Qed.

Lemma sniffing_foldl fileNames ds st :
  sniffing st → sniffing (foldl (forDiagnostic fileNames) st ds).
Proof.
  revert st. induction ds as [|d ds IH]; intros st Hst; [done|].
  cbn. by apply IH, sniffing_forDiagnostic.
Qed.

Lemma sniffing_sniff ds fileNames : sniffing (sniff ds fileNames).
Proof. apply sniffing_foldl, sniffing_initially. Qed.

Lemma sameFindings_forDiagnostic fileNames st1 st2 d :
  sniffing st1 → sniffing st2 → sameFindings st1 st2 →
  sameFindings (forDiagnostic fileNames st1 d) (forDiagnostic fileNames st2 d).
Proof.
  intros [_ Hcache1] [_ Hcache2] (Hhad & Hany & Hmiss & Hproc & Hall).
  unfold forDiagnostic, sameFindings.
  destruct (Diagnostic.file d) as [fileName|]; [|done].
  case_bool_decide; [|done].
  destruct (truthyNumber (Diagnostic.start d)) as [start|].
  2:{ by destruct (Sniffed.fileCache st1 !! fileName), (Sniffed.fileCache st2 !! fileName). }
  destruct (Sniffed.fileCache st1 !! fileName) as [c1|] eqn:E1;
    destruct (Sniffed.fileCache st2 !! fileName) as [c2|] eqn:E2;
    try (apply Hcache1 in E1 as ->); try (apply Hcache2 in E2 as ->);
    cbn; rewrite Hhad, Hany, Hmiss, Hproc, Hall;
    repeat case_match; simplify_eq; cbn; done.
Qed.

Lemma sameFindings_foldl fileNames ds st1 st2 :
  sniffing st1 → sniffing st2 → sameFindings st1 st2 →
  sameFindings (foldl (forDiagnostic fileNames) st1 ds)
               (foldl (forDiagnostic fileNames) st2 ds).
Proof.
  revert st1 st2. induction ds as [|d ds IH]; intros st1 st2 H1 H2 Hsame; [done|].
  cbn. apply IH; auto using sniffing_forDiagnostic, sameFindings_forDiagnostic.
Qed.

(** An ignored error changes nothing but [fileCache]. *)
Lemma sameFindings_ignored fileNames st d :
  sniffing st → Diagnostic.code d ∈ ignoreTheseErrors →
  sameFindings st (forDiagnostic fileNames st d).
Proof.
  intros [Hhad _] Hignored. unfold forDiagnostic, sameFindings.
  rewrite (bool_decide_eq_true_2 _ Hignored).
  repeat case_match; simplify_eq; cbn; repeat split; try done;
    (destruct (Sniffed.hadProblem st); [by rewrite Hhad|by rewrite orb_false_r]).
Qed.

Lemma sniff_app ds1 ds2 fileNames :
  sniff (ds1 ++ ds2) fileNames = foldl (forDiagnostic fileNames) (sniff ds1 fileNames) ds2.
Proof. unfold sniff. apply foldl_app. Qed.

(** C10. A diagnostic whose code is 6133, 2304, 2448 or 2454 leaves no
    trace: the problems found, the missing-support entries, the processed
    offsets and [anyProblem] are those of the run without it. *)
Theorem ignored_error_leaves_no_trace fileNames before d after :
  Diagnostic.code d ∈ [6133; 2304; 2448; 2454]%Z →
  let without := sniff (before ++ after) fileNames in
  let with_ := sniff (before ++ d :: after) fileNames in
  Sniffed.allProblems with_ = Sniffed.allProblems without
  ∧ Sniffed.missingSupport with_ = Sniffed.missingSupport without
  ∧ Sniffed.processedNodes with_ = Sniffed.processedNodes without
  ∧ Sniffed.anyProblem with_ = Sniffed.anyProblem without.
Proof.
  intros Hignored without with_. subst without with_.
  rewrite !sniff_app. cbn [foldl].
  pose proof (sniffing_sniff before fileNames) as Hbefore.
  destruct (sameFindings_foldl fileNames after
              (sniff before fileNames)
              (forDiagnostic fileNames (sniff before fileNames) d))
    as (_ & Hany & Hmiss & Hproc & Hall);
    auto using sniffing_forDiagnostic, sameFindings_ignored.
Qed.

Lemma missingSupport_forDiagnostic fileNames st d :
  ∃ extra, Sniffed.missingSupport (forDiagnostic fileNames st d)
           = (Sniffed.missingSupport st ++ extra)%list.
Proof.
  unfold forDiagnostic.
  repeat case_match; simplify_eq; cbn;
    try (by exists []; rewrite app_nil_r); by eexists.
Qed.

Lemma missingSupport_foldl fileNames ds st :
  ∃ extra, Sniffed.missingSupport (foldl (forDiagnostic fileNames) st ds)
           = (Sniffed.missingSupport st ++ extra)%list.
Proof.
  revert st. induction ds as [|d ds IH]; intros st; cbn.
  - exists []. by rewrite app_nil_r.
  - destruct (IH (forDiagnostic fileNames st d)) as [extra2 ->].
    destruct (missingSupport_forDiagnostic fileNames st d) as [extra1 ->].
    exists (extra1 ++ extra2)%list. by rewrite app_assoc.
Qed.

(** The loop body on a diagnostic that reaches [findProblems] and that
    [findProblems] does not classify. *)
Lemma forDiagnostic_unsupported fileNames st d fileName start errorNode :
  sniffing st →
  Diagnostic.file d = Some fileName →
  fileName ∈ fileNames →
  truthyNumber (Diagnostic.start d) = Some start →
  startToNode (cacheFile fileName) start = Some errorNode →
  Diagnostic.code d ∉ ignoreTheseErrors →
  getStart (getClosestTarget errorNode) ∉ Sniffed.processedNodes st →
  findProblems (Diagnostic.code d) errorNode (getClosestTarget errorNode)
    (getStart (getClosestTarget errorNode)) (cacheFile fileName) = [] →
  Sniffed.allProblems (forDiagnostic fileNames st d) = Sniffed.allProblems st
  ∧ Sniffed.missingSupport (forDiagnostic fileNames st d) =
    (Sniffed.missingSupport st ++
     [ missingSupportLine (Diagnostic.code d) (getClosestTarget errorNode)
         (getStart (getClosestTarget errorNode));
       getNodeLink (getClosestTarget errorNode) +:+ newline ])%list.
Proof.
  intros [_ Hcache] Hfile Hnames Hstart Hnode Hcode Hfresh Hnone.
  unfold forDiagnostic. rewrite Hfile, Hstart.
  rewrite (bool_decide_eq_true_2 _ Hnames).
  destruct (Sniffed.fileCache st !! fileName) as [cache|] eqn:E;
    [apply Hcache in E as ->|];
    rewrite Hnode; cbn;
    rewrite (bool_decide_eq_false_2 _ Hcode), (bool_decide_eq_false_2 _ Hfresh), Hnone;
    by rewrite bool_decide_eq_false_2 by (by intros ?).
Qed.

(** The loop body on a diagnostic whose closest target starts at an offset
    already processed: nothing is found and nothing is recorded.  The file of
    the diagnostic plays no part, [processedNodes] holding bare offsets. *)
Lemma forDiagnostic_processed fileNames st d fileName start errorNode :
  sniffing st →
  Diagnostic.file d = Some fileName →
  fileName ∈ fileNames →
  truthyNumber (Diagnostic.start d) = Some start →
  startToNode (cacheFile fileName) start = Some errorNode →
  getStart (getClosestTarget errorNode) ∈ Sniffed.processedNodes st →
  Sniffed.allProblems (forDiagnostic fileNames st d) = Sniffed.allProblems st
  ∧ Sniffed.missingSupport (forDiagnostic fileNames st d) = Sniffed.missingSupport st
  ∧ Sniffed.processedNodes (forDiagnostic fileNames st d) = Sniffed.processedNodes st.
Proof.
  intros [_ Hcache] Hfile Hnames Hstart Hnode Hprocessed.
  unfold forDiagnostic. rewrite Hfile, Hstart.
  rewrite (bool_decide_eq_true_2 _ Hnames).
  destruct (Sniffed.fileCache st !! fileName) as [cache|] eqn:E;
    [apply Hcache in E as ->|];
    rewrite Hnode; cbn;
    rewrite (bool_decide_eq_true_2 _ Hprocessed);
    by case_bool_decide.
Qed.

Lemma console_log_each run lines :
  Run.console (foldl (λ run miss, console_log miss run) run lines)
  = (Run.console run ++ lines)%list.
Proof.
  revert run. induction lines as [|line lines IH]; intros run; cbn.
  - by rewrite app_nil_r.
  - rewrite IH. cbn. by rewrite <- app_assoc.
Qed.

(** The prompt loop prints blank lines only. *)
Lemma promptForFixes_console allProblems run anyQuit run' :
  promptForFixes allProblems run = (anyQuit, run') →
  Forall (λ line, line = newline +:+ newline) (Run.console run) →
  Forall (λ line, line = newline +:+ newline) (Run.console run').
Proof.
  revert run. induction allProblems as [|problem rest IH]; intros run; cbn.
  - by intros [= <- <-].
  - unfold presentProblem.
    destruct (showPromptFixes _ _) as [quit [fileCache world]].
    destruct quit.
    + intros [= <- <-] Hrun. cbn. apply Forall_app. by split; [|repeat constructor].
    + intros Hloop Hrun. apply (IH _ Hloop). cbn.
      apply Forall_app. by split; [|repeat constructor].
Qed.

Lemma missingSupportLine_not_blank errorCode closestTargetNode problemBeg :
  missingSupportLine errorCode closestTargetNode problemBeg ≠ newline +:+ newline.
Proof. unfold missingSupportLine. cbn. discriminate. Qed.



(** C9, amended.  A diagnostic that reaches classification (its file is one
    of the files of the run, its start is set and starts a node, its code is
    not ignored and the offset of its closest target was not processed
    before) and that [findProblems] maps to no problem adds no problem, and
    a line naming its code, the kind of the closest target node and its
    offset is recorded in [missingSupport].  The line is printed at the end
    of a run in which no prompt answers quit; a run ended by a quit returns
    before the list is printed, and the line is not printed at all. *)
Theorem unsupported_is_listed_unless_quit fileNames before d after
    fileName start errorNode world :
  Diagnostic.file d = Some fileName →
  fileName ∈ fileNames →
  truthyNumber (Diagnostic.start d) = Some start →
  startToNode (cacheFile fileName) start = Some errorNode →
  Diagnostic.code d ∉ ignoreTheseErrors →
  let closestTargetNode := getClosestTarget errorNode in
  let problemBeg := getStart closestTargetNode in
  problemBeg ∉ Sniffed.processedNodes (sniff before fileNames) →
  findProblems (Diagnostic.code d) errorNode closestTargetNode problemBeg
    (cacheFile fileName) = [] →
  let line := missingSupportLine (Diagnostic.code d) closestTargetNode problemBeg in
  let st := sniff (before ++ d :: after) fileNames in
  Sniffed.allProblems (sniff (before ++ [d]) fileNames)
    = Sniffed.allProblems (sniff before fileNames)
  ∧ line ∈ Sniffed.missingSupport st
  ∧ if (promptForFixes (Sniffed.allProblems st) (beforePrompts st world)).1
    then line ∉ Run.console (startFixing (before ++ d :: after) fileNames world)
    else line ∈ Run.console (startFixing (before ++ d :: after) fileNames world).
Proof.
  intros Hfile Hnames Hstart Hnode Hcode closestTargetNode problemBeg Hfresh Hnone
    line st.
  destruct (promptForFixes (Sniffed.allProblems st) (beforePrompts st world))
    as [anyQuit run'] eqn:Hloop.
  destruct (forDiagnostic_unsupported fileNames (sniff before fileNames) d
              fileName start errorNode) as [Hall Hmiss];
    [apply sniffing_sniff|done..|].
  assert (Hline : line ∈ Sniffed.missingSupport st).
  { subst st. rewrite sniff_app. cbn [foldl].
    destruct (missingSupport_foldl fileNames after
                (forDiagnostic fileNames (sniff before fileNames) d)) as [extra ->].
    rewrite Hmiss. set_solver. }
  split; [by rewrite sniff_app|]. split; [done|].
  unfold startFixing. fold st. unfold console_log at 1. cbn.
  fold (beforePrompts st world). rewrite Hloop.
  destruct anyQuit; cbn [fst].
  - intros Hin.
    eapply promptForFixes_console in Hloop; [|by repeat constructor].
    rewrite Forall_forall in Hloop. apply Hloop in Hin.
    by apply missingSupportLine_not_blank in Hin.
  - rewrite bool_decide_eq_true_2 by (intros Hnil; rewrite Hnil in Hline; set_solver).
    cbn. rewrite console_log_each.
    destruct (Sniffed.anyProblem st); cbn; set_solver.
Qed.

End FixingProofs.

(** C3.  The offsets processed are kept in one set for the whole run, so a
    diagnostic of [b.ts] at an offset already processed in [a.ts] is dropped:
    the run finds one problem where the two diagnostics, one per file, are
    two problems, and the problem of [b.ts] is found when its diagnostic
    comes alone. *)
Theorem same_offset_in_another_file_is_dropped :
  let a := Fixture.diagnostic 2322 "a.ts" 4 in
  let b := Fixture.diagnostic 2322 "b.ts" 4 in
  let entry file :=
    {| Fixture.entryFile := file; Fixture.entryOffset := 4;
       Fixture.candidates := [[Fixture.hash 4]] |} in
  Sniffed.allProblems (sniff [a; b] ["a.ts"; "b.ts"]) = [entry "a.ts"]
  ∧ Sniffed.allProblems (sniff [b] ["a.ts"; "b.ts"]) = [entry "b.ts"]
  ∧ Sniffed.missingSupport (sniff [a; b] ["a.ts"; "b.ts"]) = [].
Proof. by vm_compute. Qed.


(** ** The patch engine *)

Section PatchEngineProofs.
Import PatchEngine.

#[local] Instance startsNoLater_trans : Transitive startsNoLater.
Proof. unfold startsNoLater. intros a b c. lia. Qed.











End PatchEngineProofs.

(** ** The properties on the fixtures *)

Section Instances.
Import Fixture.


(** Against C2 as stated.  A [propMismatch] problem that also has a key only
    the target has: the choice carries a [makeOptional] edit besides the
    [unionType] edit. *)
Lemma propMismatch_edits_counterexample :
  let whenContext := whenContext ErrorType.propMismatch None false ["a"] [] ["b"] in
  ∃ choice,
    Context.errorType (WhenContext.context whenContext) = ErrorType.propMismatch
    ∧ Layer.sourceInfo <$> head (WhenContext.stack whenContext) = Some source
    ∧ NodeInfo.isPlaceholder source = false
    ∧ outcome whenContext = Some ([choice], [])
    ∧ Edit.type <$> Choice.edits choice
      = [ReplacementType.unionType; ReplacementType.makeOptional]
    ∧ Choice.edits choice
      ≠ unionTypePerKey (WhenContext.context whenContext)
          [("a", sourceA); ("c", sourceC)] ["a"].
Proof. eexists. do 5 (split; [reflexivity|]). discriminate. Qed.

Lemma propMismatch_edits_witness :
  let whenContext := whenContext ErrorType.propMismatch None false ["a"] [] [] in
  ∃ s', whenMismatchedOrMissingTypes whenContext emptyStore = Normal tt s'
    ∧ Store.choices s' =
        [ {| Choice.title := "Fix mismatched property types?";
             Choice.prompt := "Union property types";
             Choice.edits :=
               [ {| Edit.primeInfo := Some sourceA; Edit.otherInfo := Some targetA;
                    Edit.type := ReplacementType.unionType |} ] |} ].
Proof.
  intros whenContext.
  destruct (propMismatch_edits whenContext emptyStore
              {| Problem.mismatch := ["a"]; Problem.missing := [];
                 Problem.reversed := Some {| Reversed.missing := [] |};
                 Problem.targetInfo := target |} []
              {| Layer.sourceInfo := source; Layer.targetInfo := target |} []
              [("a", sourceA); ("c", sourceC)])
    as (s' & Hrun & _ & Hexact);
    [reflexivity|reflexivity|reflexivity|reflexivity|reflexivity|reflexivity|
     intros Hmissing; exfalso; apply Hmissing; reflexivity|].
  exists s'. split; [exact Hrun|]. exact (Hexact eq_refl eq_refl).
Defined.

(** Against C6 as stated.  A [bothMissing] problem that also has a
    mismatched key: the choice carries a [unionType] edit besides the
    [makeOptional] and [insertOptionalProperty] edits. *)
Lemma bothMissing_edits_counterexample :
  let whenContext := whenContext ErrorType.bothMissing None false ["a"] ["c"] ["b"] in
  ∃ choice,
    Context.errorType (WhenContext.context whenContext) = ErrorType.bothMissing
    ∧ Layer.sourceInfo <$> head (WhenContext.stack whenContext) = Some source
    ∧ NodeInfo.isPlaceholder source = false
    ∧ outcome whenContext = Some ([choice], [])
    ∧ Edit.type <$> Choice.edits choice
      = [ReplacementType.unionType; ReplacementType.makeOptional;
         ReplacementType.insertOptionalProperty]
    ∧ Choice.edits choice
      ≠ (makeOptionalPerKey (WhenContext.context whenContext) ["b"] ++
         insertOptionalPropertyPerKey target 0 [("a", sourceA); ("c", sourceC)] ["c"])%list.
Proof. eexists. do 5 (split; [reflexivity|]). discriminate. Qed.

Lemma bothMissing_edits_witness :
  let whenContext := whenContext ErrorType.bothMissing None false [] ["c"] ["b"] in
  ∃ s', whenMismatchedOrMissingTypes whenContext emptyStore = Normal tt s'
    ∧ Store.choices s' =
        [ {| Choice.title := "Fix missing properties??";
             Choice.prompt := "Add or convert properties in Target to optional ";
             Choice.edits :=
               [ {| Edit.primeInfo := Some targetB; Edit.otherInfo := None;
                    Edit.type := ReplacementType.makeOptional |};
                 {| Edit.primeInfo := Some (NodeInfo.set_declaredId 0 target);
                    Edit.otherInfo := Some sourceC;
                    Edit.type := ReplacementType.insertOptionalProperty |} ] |} ].
Proof.
  intros whenContext.
  destruct (bothMissing_edits whenContext emptyStore
              {| Problem.mismatch := []; Problem.missing := ["c"];
                 Problem.reversed := Some {| Reversed.missing := ["b"] |};
                 Problem.targetInfo := target |} []
              {| Layer.sourceInfo := source; Layer.targetInfo := target |} []
              [("a", sourceA); ("c", sourceC)])
    as (s' & Hrun & _ & Hexact);
    [reflexivity|reflexivity|reflexivity|reflexivity|reflexivity|reflexivity|
     intros _; eexists; reflexivity|].
  exists s'. split; [exact Hrun|]. exact (Hexact eq_refl).
Defined.

(** Against C7 as stated.  A [simpleToObject] problem inside a function:
    nothing is suggested. *)
Lemma scalar_object_confusion_counterexample :
  let whenContext := whenContext ErrorType.simpleToObject (Some "render") false [] [] [] in
  Context.errorType (WhenContext.context whenContext) = ErrorType.simpleToObject
  ∧ outcome whenContext = Some ([], []).
Proof. split; reflexivity. Qed.

Lemma scalar_object_confusion_only_suggests_witness :
  let whenContext := whenContext ErrorType.objectToSimple None false [] [] [] in
  Store.choices (finalStore (whenMismatchedOrMissingTypes whenContext emptyStore)) = []
  ∧ ∃ s', whenMismatchedOrMissingTypes whenContext emptyStore = Normal tt s'
      ∧ ∃ message,
          Store.suggestions s' =
            [ {| Suggestion.message := message; Suggestion.link := "src.ts:1" |} ].
Proof.
  intros whenContext.
  destruct (scalar_object_confusion_only_suggests whenContext emptyStore)
    as [Hchoices Hsuggestions]; [right; reflexivity|].
  split; [exact Hchoices|].
  apply (Hsuggestions {| Layer.sourceInfo := source; Layer.targetInfo := target |} []);
    [reflexivity|discriminate|reflexivity].
Defined.




(** Against C9 as stated.  An unsupported diagnostic in a run the user
    quits: the line is recorded but never printed. *)
Lemma unsupported_not_listed_after_quit_counterexample :
  let diagnostics := [diagnostic 2322 "a.ts" 1; diagnostic 9999 "a.ts" 3] in
  let line := "For error 9999, missing support Identifier 3" in
  line ∈ Sniffed.missingSupport (sniff diagnostics ["a.ts"])
  ∧ line ∉ Run.console (startFixing diagnostics ["a.ts"] (project [Quit])).
Proof. split; compute_done. Qed.

Lemma unsupported_is_listed_unless_quit_witness :
  let before := [diagnostic 2322 "a.ts" 1] in
  let d := diagnostic 9999 "a.ts" 3 in
  let line := "For error 9999, missing support Identifier 3" in
  Sniffed.allProblems (sniff (before ++ [d]) ["a.ts"])
    = Sniffed.allProblems (sniff before ["a.ts"])
  ∧ line ∈ Sniffed.missingSupport (sniff (before ++ [d]) ["a.ts"])
  ∧ line ∈ Run.console (startFixing (before ++ [d]) ["a.ts"] (project [Skipped])).
Proof.
  intros before d line.
  apply (@unsupported_is_listed_unless_quit hound ["a.ts"] before d [] "a.ts" 3 ("a.ts", 3)
           (project [Skipped]));
    [reflexivity|compute_done|reflexivity|reflexivity|compute_done|compute_done|reflexivity].
Defined.

Lemma ignored_error_leaves_no_trace_witness :
  let before := [diagnostic 2322 "a.ts" 1] in
  let d := diagnostic 6133 "a.ts" 3 in
  let after := [diagnostic 9999 "a.ts" 5] in
  let without := sniff (before ++ after) ["a.ts"] in
  let with_ := sniff (before ++ d :: after) ["a.ts"] in
  Sniffed.allProblems with_ = Sniffed.allProblems without
  ∧ Sniffed.missingSupport with_ = Sniffed.missingSupport without
  ∧ Sniffed.processedNodes with_ = Sniffed.processedNodes without
  ∧ Sniffed.anyProblem with_ = Sniffed.anyProblem without.
Proof.
  intros before d after.
  apply (ignored_error_leaves_no_trace ["a.ts"] before d after). compute_done.
Defined.



End Instances.

(** * Further properties *)

(** ** The fix catalog *)

Section CatalogMore.
Context `{TypeChecker}.
Local Open Scope eff_scope.

(** Reading [context.sourceMap] once per key: all reads succeed, or the first
    one throws. *)
Lemma forEach_sourceMapAt {B} (g : string → option NodeInfo.t → B) context keys s :
  forEach (λ key, do info <- sourceMapAt context key ; ret (g key info)) keys s
  = match Context.sourceMap context, keys with
    | Some sourceMap, _ => Normal ((λ key, g key (getProp sourceMap key)) <$> keys) s
    | None, [] => Normal [] s
    | None, _ :: _ => TypeError s
    end.
Proof.
  destruct (Context.sourceMap context) as [sourceMap|] eqn:HsourceMap.
  - apply forEach_pure. intros key. unfold sourceMapAt, bind. by rewrite HsourceMap.
  - destruct keys as [|key keys]; [done|]. cbn. unfold bind, sourceMapAt, bind.
    by rewrite HsourceMap.
Qed.

Lemma suggesting_nil s : suggesting [] s = s.
Proof. unfold suggesting. rewrite app_nil_r. by destruct s. Qed.

Lemma didYouMeanThisChildProperty_run context layer rest s :
  didYouMeanThisChildProperty context (layer :: rest) s
  = Normal tt (suggesting (childSuggestion context (layer :: rest)) s).
Proof.
  unfold didYouMeanThisChildProperty, childSuggestion.
  destruct (Context.sourceMap context) as [sourceMap|]; [|by rewrite suggesting_nil].
  destruct (last_is_Some (layer :: rest)) as [_ [l Hl]]; [done|].
  unfold bind. rewrite Hl. cbn.
  destruct (find _ _); [done|]. by rewrite suggesting_nil.
Qed.

Lemma addsAtMost_nothing choices suggestions s c :
  finalStore c = s → addsAtMost choices suggestions s c.
Proof.
  intros Hc. exists [], []. rewrite Hc, !app_nil_r. repeat split; try done; cbn; try lia. by left.
Qed.

Lemma childSuggestion_length context stack : (length (childSuggestion context stack) ≤ 1)%nat.
Proof. unfold childSuggestion. repeat case_match; cbn; lia. Qed.

Lemma addShapeChoice_addsAtMost prompt title whenContext s :
  addsAtMost 1 1 s (addShapeChoice prompt (addChoice title) whenContext s).
Proof.
  unfold addShapeChoice.
  destruct (head (WhenContext.problems whenContext)) as [problem|];
    [|by apply addsAtMost_nothing].
  destruct (WhenContext.stack whenContext) as [|layer rest] eqn:Hstack;
    [by apply addsAtMost_nothing|].
  cbn [head defined]. unfold ret at 1 2. unfold bind at 1 2 3.
  rewrite didYouMeanThisChildProperty_run.
  set (suggestions := childSuggestion _ _).
  assert (Hsuggestions : (length suggestions ≤ 1)%nat) by apply childSuggestion_length.
  unfold bind at 1.
  rewrite (forEach_sourceMapAt
             (λ key info, {| Edit.primeInfo := info;
                             Edit.otherInfo := getProp (Context.targetMap (WhenContext.context whenContext)) key;
                             Edit.type := ReplacementType.unionType |})).
  assert (Hquiet : ∀ c : Completion unit, finalStore c = suggesting suggestions s →
                   addsAtMost 1 1 s c).
  { intros c Hc. exists [], suggestions. rewrite Hc. cbn. rewrite app_nil_r.
    repeat split; try done; cbn; try lia. by left. }
  assert (Hoffer : ∀ (cache : NodeCache) (edits : list Edit.t),
            (cache = Store.cache s ∨ ∃ declaration, cache = (saveNode (Store.cache s) declaration).2) →
            addsAtMost 1 1 s
              ((if bool_decide (edits ≠ []) then addChoice title prompt edits else ret ())
                 {| Store.choices := Store.choices s;
                    Store.suggestions := (Store.suggestions s ++ suggestions)%list;
                    Store.cache := cache |})).
  { intros cache edits Hcache. case_bool_decide as Hedits; cbn.
    - exists [ {| Choice.title := title; Choice.prompt := prompt; Choice.edits := edits |} ],
        suggestions.
      repeat split; try done; cbn; try lia. by repeat constructor.
    - exists [], suggestions. rewrite app_nil_r. repeat split; try done; cbn; lia. }
  assert (Hinserts : ∀ unions : list Edit.t,
    addsAtMost 1 1 s
      (bind
         (if bool_decide (Problem.missing problem ≠ []) then
            do cache <- readCache ;
            let targetType := getType cache (NodeInfo.typeId (Problem.targetInfo problem)) in
            do declarations <- defined (getDeclarations targetType) ;
            let declaration := head declarations in
            do declaredId <- cache_saveNode declaration ;
            let targetInfo := NodeInfo.set_declaredId declaredId (Layer.targetInfo layer) in
            forEach (λ key,
              do otherInfo <- sourceMapAt (WhenContext.context whenContext) key ;
              ret {| Edit.primeInfo := Some targetInfo;
                     Edit.otherInfo := otherInfo;
                     Edit.type := ReplacementType.insertOptionalProperty |})
              (Problem.missing problem)
          else ret [])
         (λ inserts,
            let nodeInfos :=
              (unions ++
               match Problem.reversed problem with
               | Some reversed =>
                   (λ key, {| Edit.primeInfo := getProp (Context.targetMap (WhenContext.context whenContext)) key;
                              Edit.otherInfo := None;
                              Edit.type := ReplacementType.makeOptional |})
                     <$> Reversed.missing reversed
               | None => []
               end ++ inserts)%list in
            if bool_decide (nodeInfos ≠ []) then addChoice title prompt nodeInfos else ret ())
         (suggesting suggestions s))).
  { intros unions. unfold bind at 1.
    case_bool_decide as Hmissing; [|by apply Hoffer; left].
    unfold bind at 1. unfold readCache at 1. cbn [suggesting Store.cache].
    unfold bind at 1.
    destruct (getDeclarations _) as [declarations|]; [|by apply Hquiet].
    cbn [defined]. unfold ret at 1, bind at 1, cache_saveNode at 1.
    change (Store.cache (suggesting suggestions s)) with (Store.cache s).
    change (Store.choices (suggesting suggestions s)) with (Store.choices s).
    change (Store.suggestions (suggesting suggestions s))
      with (Store.suggestions s ++ suggestions)%list.
    destruct (saveNode (Store.cache s) (head declarations)) as [declaredId cache'] eqn:Hsave.
    rewrite (forEach_sourceMapAt
               (λ key info, {| Edit.primeInfo := Some (NodeInfo.set_declaredId declaredId (Layer.targetInfo layer));
                               Edit.otherInfo := info;
                               Edit.type := ReplacementType.insertOptionalProperty |})).
    assert (Hcache : cache' = Store.cache s
                     ∨ ∃ declaration, cache' = (saveNode (Store.cache s) declaration).2).
    { right. exists (head declarations). by rewrite Hsave. }
    destruct (Context.sourceMap _) as [sourceMap|].
    - by apply Hoffer.
    - destruct (Problem.missing problem) as [|key keys]; [done|].
      exists [], suggestions. cbn. rewrite app_nil_r. repeat split; try done; cbn; lia. }
  destruct (Context.sourceMap (WhenContext.context whenContext)) as [sourceMap|] eqn:HsourceMap.
  - apply Hinserts.
  - destruct (Problem.mismatch problem) as [|key keys]; [apply Hinserts|by apply Hquiet].
Qed.

Lemma addsAtMost_weaken s c : addsAtMost 1 1 s c → addsAtMost 2 1 s c.
Proof.
  intros (newChoices & newSuggestions & ? & ? & ? & ? & ? & ?).
  exists newChoices, newSuggestions. repeat split; try done. lia.
Qed.

(** X11.  Whatever its input and however it ends, normally or by a
    [TypeError], the handler keeps the choices and suggestions already made,
    adds at most two choices, none of them without an edit, and at most one
    suggestion, and saves at most one node in the cache. *)
Theorem handler_adds_at_most_two_choices whenContext s :
  addsAtMost 2 1 s (whenMismatchedOrMissingTypes whenContext s).
Proof.
  unfold whenMismatchedOrMissingTypes.
  destruct (Context.captured _ || bool_decide _); [by apply addsAtMost_nothing|].
  unfold bind at 1.
  destruct (head (WhenContext.stack whenContext)) as [layer|];
    [|by apply addsAtMost_nothing].
  cbn [defined ret].
  assert (Htwo : ∀ title prompt1 prompt2 edit1 edit2,
            addsAtMost 2 1 s
              (bind (addChoice title prompt1 [edit1])
                    (λ _, addChoice title prompt2 [edit2]) s)).
  { intros. unfold bind, addChoice. cbn.
    eexists [_; _], []. rewrite <- app_assoc, app_nil_r. cbn.
    repeat split; try done; try lia; [by repeat constructor|by left]. }
  assert (Hsuggest : ∀ message link, addsAtMost 2 1 s (suggest message link s)).
  { intros. unfold suggest. eexists [], [_]. rewrite app_nil_r. cbn.
    repeat split; try done; try lia. by left. }
  destruct (decide (_ = ErrorType.mismatch)); [apply Htwo|].
  destruct (decide (_ = ErrorType.simpleToObject));
    [destruct (negb _); [apply Hsuggest|by apply addsAtMost_nothing]|].
  destruct (decide (_ = ErrorType.objectToSimple));
    [destruct (negb _); [apply Hsuggest|by apply addsAtMost_nothing]|].
  destruct (NodeInfo.isPlaceholder (Layer.sourceInfo layer)).
  - unfold bind at 1.
    destruct (Context.placeholderInfo _) as [placeholderInfo|];
      [|by apply addsAtMost_nothing].
    cbn [defined ret].
    destruct (getProp _ _) as [placeholderTargetInfo|].
    + unfold bind at 1, readCache at 1. apply Htwo.
    + unfold bind at 1.
      destruct (NodeInfo.placeholderTarget placeholderInfo) as [placeholderTarget|];
        [|by apply addsAtMost_nothing].
      cbn [defined ret]. unfold bind at 1, readCache at 1. unfold bind at 1.
      destruct (getDeclarations _) as [declarations|]; [|by apply addsAtMost_nothing].
      cbn [defined ret]. unfold bind at 1.
      destruct (head declarations) as [declaration|]; [|by apply addsAtMost_nothing].
      cbn [defined ret]. unfold bind at 1, cache_saveNode at 1.
      destruct (saveNode (Store.cache s) (Some declaration)) as [declaredId cache'] eqn:Hsave.
      destruct (decide (_ = ErrorType.missingIndex)); unfold addChoice; cbn;
        eexists [_], []; rewrite app_nil_r; cbn;
        (repeat split; try done; try lia; [by repeat constructor|]);
        right; exists (Some declaration); by rewrite Hsave.
  - repeat (destruct (decide _);
              [apply addsAtMost_weaken, addShapeChoice_addsAtMost|]).
    by apply addsAtMost_nothing.
Qed.

(** The store [addShapeChoice] leaves when every lookup succeeds. *)
Lemma addShapeChoice_run prompt title whenContext s problem problems layer rest sourceMap :
  WhenContext.problems whenContext = problem :: problems →
  WhenContext.stack whenContext = layer :: rest →
  Context.sourceMap (WhenContext.context whenContext) = Some sourceMap →
  (Problem.missing problem ≠ [] → is_Some (targetDeclarations s problem)) →
  addShapeChoice prompt (addChoice title) whenContext s
  = Normal tt
      {| Store.choices :=
           (Store.choices s ++
            choiceFor title prompt
              (unionTypePerKey (WhenContext.context whenContext) sourceMap (Problem.mismatch problem) ++
               makeOptionalPerKey (WhenContext.context whenContext) (reversedMissing problem) ++
               insertOptionalPropertyPerKey (Layer.targetInfo layer)
                 (targetDeclaredId s problem) sourceMap (Problem.missing problem)))%list;
         Store.suggestions :=
           (Store.suggestions s ++
            childSuggestion (WhenContext.context whenContext) (WhenContext.stack whenContext))%list;
         Store.cache :=
           if bool_decide (Problem.missing problem ≠ [])
           then (saveNode (Store.cache s)
                   (head (default [] (targetDeclarations s problem)))).2
           else Store.cache s |}.
Proof.
  intros Hproblems Hstack HsourceMap Hdecl.
  unfold addShapeChoice. rewrite Hproblems, Hstack.
  cbn [head defined]. unfold ret at 1 2. unfold bind at 1 2 3.
  rewrite didYouMeanThisChildProperty_run.
  set (suggestions := childSuggestion _ _).
  unfold bind at 1.
  rewrite (forEach_sourceMapAt
             (λ key info, {| Edit.primeInfo := info;
                             Edit.otherInfo := getProp (Context.targetMap (WhenContext.context whenContext)) key;
                             Edit.type := ReplacementType.unionType |})).
  rewrite HsourceMap.
  fold (unionTypePerKey (WhenContext.context whenContext) sourceMap (Problem.mismatch problem)).
  assert (Hopt : match Problem.reversed problem with
                 | Some reversed =>
                     (λ key, {| Edit.primeInfo := getProp (Context.targetMap (WhenContext.context whenContext)) key;
                                Edit.otherInfo := None;
                                Edit.type := ReplacementType.makeOptional |})
                       <$> Reversed.missing reversed
                 | None => []
                 end = makeOptionalPerKey (WhenContext.context whenContext) (reversedMissing problem)).
  { unfold makeOptionalPerKey, reversedMissing. by destruct (Problem.reversed problem). }
  rewrite Hopt. clear Hopt.
  assert (Hfinish : ∀ (cache : NodeCache) (edits : list Edit.t),
            (if bool_decide (edits ≠ []) then addChoice title prompt edits else ret ())
              {| Store.choices := Store.choices s;
                 Store.suggestions := (Store.suggestions s ++ suggestions)%list;
                 Store.cache := cache |}
            = Normal tt
                {| Store.choices := (Store.choices s ++ choiceFor title prompt edits)%list;
                   Store.suggestions := (Store.suggestions s ++ suggestions)%list;
                   Store.cache := cache |}).
  { intros cache edits. case_bool_decide as Hedits.
    - unfold addChoice. cbn. by destruct edits.
    - rewrite Hedits. cbn. by rewrite app_nil_r. }
  unfold bind at 1.
  case_bool_decide as Hmissing.
  - destruct (Hdecl Hmissing) as [declarations Hdeclarations].
    unfold targetDeclaredId. rewrite Hdeclarations.
    change (default [] (Some declarations)) with declarations.
    unfold targetDeclarations in Hdeclarations.
    unfold bind at 1. unfold readCache at 1.
    change (Store.cache (suggesting suggestions s)) with (Store.cache s).
    unfold bind at 1. rewrite Hdeclarations.
    cbn [defined]. unfold ret at 1, bind at 1, cache_saveNode at 1.
    change (Store.cache (suggesting suggestions s)) with (Store.cache s).
    change (Store.choices (suggesting suggestions s)) with (Store.choices s).
    change (Store.suggestions (suggesting suggestions s))
      with (Store.suggestions s ++ suggestions)%list.
    destruct (saveNode (Store.cache s) (head declarations)) as [declaredId cache'] eqn:Hsave.
    rewrite (forEach_sourceMapAt
               (λ key info, {| Edit.primeInfo := Some (NodeInfo.set_declaredId declaredId (Layer.targetInfo layer));
                               Edit.otherInfo := info;
                               Edit.type := ReplacementType.insertOptionalProperty |})).
    rewrite HsourceMap.
    fold (insertOptionalPropertyPerKey (Layer.targetInfo layer) declaredId sourceMap
            (Problem.missing problem)).
    cbn [fst snd]. apply Hfinish.
  - rewrite Hmissing. unfold ret at 1.
    cbn [insertOptionalPropertyPerKey fmap list_fmap].
    apply (Hfinish (Store.cache s)).
Qed.

Ltac pass_guard Hcaptured Hproblems Hstack :=
  unfold whenMismatchedOrMissingTypes;
  rewrite Hcaptured, Hstack;
  rewrite (bool_decide_eq_false_2 _ Hproblems);
  cbn [orb]; unfold bind at 1; cbn [head defined ret].

(** X12.  The four shape kinds share one edit list and differ in title and
    prompt only: a [unionType] edit per mismatched key, a [makeOptional] edit
    per key of [reversed.missing] and an [insertOptionalProperty] edit per
    missing key, in one choice, none when there is no edit.  The suggestion
    of [didYouMeanThisChildProperty] is made besides, and a node is saved in
    the cache exactly when some key is missing. *)
Theorem shape_kinds_share_edits whenContext s problem problems layer rest sourceMap :
  let context := WhenContext.context whenContext in
  let targetName := WhenContext.targetName whenContext in
  Context.captured context = false →
  WhenContext.problems whenContext = problem :: problems →
  WhenContext.stack whenContext = layer :: rest →
  NodeInfo.isPlaceholder (Layer.sourceInfo layer) = false →
  Context.sourceMap context = Some sourceMap →
  (Problem.missing problem ≠ [] → is_Some (targetDeclarations s problem)) →
  ∀ title prompt,
    match Context.errorType context with
    | ErrorType.propMismatch =>
        Some ("Fix mismatched property types?", "Union property types")
    | ErrorType.targetPropMissing =>
        Some ("Fix missing properties?", "Add properties as optional to " +:+ targetName)
    | ErrorType.bothMissing =>
        Some ("Fix missing properties??",
              "Add or convert properties in " +:+ targetName +:+ " to optional ")
    | ErrorType.both =>
        Some ("Fix missing and mismatched properties?",
              "Union property types and add properties as optional")
    | _ => None
    end = Some (title, prompt) →
    whenMismatchedOrMissingTypes whenContext s
    = Normal tt
        {| Store.choices :=
             (Store.choices s ++
              choiceFor title prompt
                (unionTypePerKey context sourceMap (Problem.mismatch problem) ++
                 makeOptionalPerKey context (reversedMissing problem) ++
                 insertOptionalPropertyPerKey (Layer.targetInfo layer)
                   (targetDeclaredId s problem) sourceMap (Problem.missing problem)))%list;
           Store.suggestions :=
             (Store.suggestions s ++ childSuggestion context (WhenContext.stack whenContext))%list;
           Store.cache :=
             if bool_decide (Problem.missing problem ≠ [])
             then (saveNode (Store.cache s)
                     (head (default [] (targetDeclarations s problem)))).2
             else Store.cache s |}.
Proof.
  intros context targetName Hcaptured Hproblems Hstack Hplaceholder HsourceMap Hdecl
    title prompt Hkind.
  assert (Hsome : WhenContext.problems whenContext ≠ []) by (by rewrite Hproblems).
  subst context targetName.
  rewrite <- (addShapeChoice_run prompt title whenContext s problem problems layer rest sourceMap)
    by done.
  pass_guard Hcaptured Hsome Hstack. rewrite Hplaceholder.
  destruct (Context.errorType (WhenContext.context whenContext)); try discriminate;
    injection Hkind as <- <-;
    repeat (rewrite decide_False by discriminate);
    by rewrite decide_True by done.
Qed.

(** X13.  For a shape problem a choice is offered exactly when one of the
    three key lists is not empty. *)
Theorem shape_choice_iff_some_key whenContext s problem problems layer rest sourceMap :
  let context := WhenContext.context whenContext in
  Context.captured context = false →
  WhenContext.problems whenContext = problem :: problems →
  WhenContext.stack whenContext = layer :: rest →
  NodeInfo.isPlaceholder (Layer.sourceInfo layer) = false →
  Context.errorType context ∈
    [ErrorType.propMismatch; ErrorType.targetPropMissing; ErrorType.bothMissing; ErrorType.both] →
  Context.sourceMap context = Some sourceMap →
  (Problem.missing problem ≠ [] → is_Some (targetDeclarations s problem)) →
  Store.choices (finalStore (whenMismatchedOrMissingTypes whenContext s)) = Store.choices s
  ↔ Problem.mismatch problem = [] ∧ reversedMissing problem = [] ∧ Problem.missing problem = [].
Proof.
  intros context Hcaptured Hproblems Hstack Hplaceholder Hkind HsourceMap Hdecl.
  assert (∃ title prompt,
            whenMismatchedOrMissingTypes whenContext s
            = addShapeChoice prompt (addChoice title) whenContext s) as (title & prompt & ->).
  { assert (Hsome : WhenContext.problems whenContext ≠ []) by (by rewrite Hproblems).
    subst context. pass_guard Hcaptured Hsome Hstack. rewrite Hplaceholder.
    repeat apply elem_of_cons in Hkind as [->|Hkind]; [..|by apply elem_of_nil in Hkind];
      repeat (rewrite decide_False by discriminate);
      rewrite decide_True by done; by do 2 eexists. }
  rewrite (addShapeChoice_run prompt title whenContext s problem problems layer rest sourceMap)
    by done.
  cbn [finalStore Store.choices].
  unfold choiceFor, unionTypePerKey, makeOptionalPerKey, insertOptionalPropertyPerKey.
  split.
  - intros Hsame.
    destruct (Problem.mismatch problem); [|by apply (f_equal length) in Hsame; rewrite length_app in Hsame; cbn in Hsame; lia].
    destruct (reversedMissing problem); [|by apply (f_equal length) in Hsame; rewrite length_app in Hsame; cbn in Hsame; lia].
    destruct (Problem.missing problem); [done|].
    apply (f_equal length) in Hsame. rewrite length_app in Hsame. cbn in Hsame. lia.
  - intros (-> & -> & ->). cbn. by rewrite app_nil_r.
Qed.

(** X14.  A shape problem with missing keys whose target type has no
    declarations ends in a [TypeError]: no choice is offered, not even for
    the mismatched keys, and the cache is left as it is; the suggestion of
    [didYouMeanThisChildProperty], made before, stays. *)
Theorem shape_without_declaration_throws whenContext s problem problems layer rest :
  let context := WhenContext.context whenContext in
  Context.captured context = false →
  WhenContext.problems whenContext = problem :: problems →
  WhenContext.stack whenContext = layer :: rest →
  NodeInfo.isPlaceholder (Layer.sourceInfo layer) = false →
  Context.errorType context ∈
    [ErrorType.propMismatch; ErrorType.targetPropMissing; ErrorType.bothMissing; ErrorType.both] →
  Problem.missing problem ≠ [] →
  targetDeclarations s problem = None →
  whenMismatchedOrMissingTypes whenContext s
  = TypeError (suggesting (childSuggestion context (WhenContext.stack whenContext)) s).
Proof.
  intros context Hcaptured Hproblems Hstack Hplaceholder Hkind Hmissing Hdecl.
  assert (∃ title prompt,
            whenMismatchedOrMissingTypes whenContext s
            = addShapeChoice prompt (addChoice title) whenContext s) as (title & prompt & ->).
  { assert (Hsome : WhenContext.problems whenContext ≠ []) by (by rewrite Hproblems).
    subst context. pass_guard Hcaptured Hsome Hstack. rewrite Hplaceholder.
    repeat apply elem_of_cons in Hkind as [->|Hkind]; [..|by apply elem_of_nil in Hkind];
      repeat (rewrite decide_False by discriminate);
      rewrite decide_True by done; by do 2 eexists. }
  unfold addShapeChoice. rewrite Hproblems, Hstack.
  cbn [head defined]. unfold ret at 1 2. unfold bind at 1 2 3.
  rewrite didYouMeanThisChildProperty_run.
  set (suggestions := childSuggestion _ _).
  unfold bind at 1.
  rewrite (forEach_sourceMapAt
             (λ key info, {| Edit.primeInfo := info;
                             Edit.otherInfo := getProp (Context.targetMap (WhenContext.context whenContext)) key;
                             Edit.type := ReplacementType.unionType |})).
  destruct (Context.sourceMap (WhenContext.context whenContext)) as [sourceMap|];
    [|destruct (Problem.mismatch problem); [|done]];
    unfold bind at 1; rewrite (bool_decide_eq_true_2 _ Hmissing);
    unfold bind at 1; unfold readCache at 1; unfold bind at 1;
    change (Store.cache (suggesting suggestions s)) with (Store.cache s);
    unfold targetDeclarations in Hdecl; by rewrite Hdecl.
Qed.

(** X15.  For a placeholder problem whose target key resolves in the target
    map, two choices are offered under one title: converting, with the
    placeholder as prime and the target property as other, then widening,
    with the two swapped; both infos carry their type, read from the cache,
    which is left as it is. *)
Theorem placeholder_with_target_offers_convert_then_union whenContext s layer rest
    placeholderInfo placeholderTargetInfo :
  let context := WhenContext.context whenContext in
  let targetKey :=
    match NodeInfo.placeholderTarget placeholderInfo with
    | Some placeholderTarget => PlaceholderTarget.key placeholderTarget
    | None => NodeInfo.targetKey (Layer.sourceInfo layer)
    end in
  Context.captured context = false →
  WhenContext.problems whenContext ≠ [] →
  WhenContext.stack whenContext = layer :: rest →
  Context.errorType context ≠ ErrorType.mismatch →
  Context.errorType context ≠ ErrorType.simpleToObject →
  Context.errorType context ≠ ErrorType.objectToSimple →
  NodeInfo.isPlaceholder (Layer.sourceInfo layer) = true →
  Context.placeholderInfo context = Some placeholderInfo →
  getProp (Context.targetMap context) (keyName targetKey) = Some placeholderTargetInfo →
  let typed info := NodeInfo.set_type (getType (Store.cache s) (NodeInfo.typeId info)) info in
  ∃ convert union,
    whenMismatchedOrMissingTypes whenContext s
    = Normal tt {| Store.choices := (Store.choices s ++ [convert; union])%list;
                   Store.suggestions := Store.suggestions s;
                   Store.cache := Store.cache s |}
    ∧ Choice.edits convert =
        [ {| Edit.primeInfo := Some (typed placeholderInfo);
             Edit.otherInfo := Some (typed placeholderTargetInfo);
             Edit.type := ReplacementType.convertType |} ]
    ∧ Choice.edits union =
        [ {| Edit.primeInfo := Some (typed placeholderTargetInfo);
             Edit.otherInfo := Some (typed placeholderInfo);
             Edit.type := ReplacementType.unionType |} ]
    ∧ Choice.title convert = Choice.title union.
Proof.
  intros context targetKey Hcaptured Hproblems Hstack Hmismatch Hs2o Ho2s Hplaceholder
    HplaceholderInfo Hresolved typed.
  subst context targetKey. pass_guard Hcaptured Hproblems Hstack.
  rewrite !decide_False by done. rewrite Hplaceholder, HplaceholderInfo.
  unfold bind at 1. cbn [defined ret]. rewrite Hresolved.
  unfold bind, readCache, addChoice. cbn.
  do 2 eexists. split; [by rewrite <- app_assoc|by repeat split].
Qed.


(** X17.  The handler does nothing when the context is captured, when there
    is no problem, or when the source is no placeholder and the error type is
    none of the seven it handles ([missingIndex] for one). *)
Theorem handler_leaves_other_problems_alone whenContext s :
  let context := WhenContext.context whenContext in
  Context.captured context = true
  ∨ WhenContext.problems whenContext = []
  ∨ (WhenContext.stack whenContext ≠ []
     ∧ (∀ layer, head (WhenContext.stack whenContext) = Some layer →
                 NodeInfo.isPlaceholder (Layer.sourceInfo layer) = false)
     ∧ Context.errorType context ∉
         [ErrorType.mismatch; ErrorType.simpleToObject; ErrorType.objectToSimple;
          ErrorType.propMismatch; ErrorType.targetPropMissing; ErrorType.bothMissing;
          ErrorType.both]) →
  whenMismatchedOrMissingTypes whenContext s = Normal tt s.
Proof.
  intros context Hcase. subst context. unfold whenMismatchedOrMissingTypes.
  destruct Hcase as [-> | [-> | (Hstack & Hplaceholder & Hkind)]]; [done| |].
  - by rewrite bool_decide_eq_true_2, orb_true_r by done.
  - destruct (Context.captured _ || bool_decide _); [done|].
    destruct (WhenContext.stack whenContext) as [|layer rest]; [done|].
    unfold bind at 1. cbn [head defined ret].
    rewrite (Hplaceholder layer eq_refl).
    repeat (rewrite decide_False; [|intros Heq; apply Hkind; rewrite Heq; set_solver]).
    done.
Qed.

(** X18.  [didYouMeanThisChildProperty] judges the innermost layer, the last
    of the stack, and suggests the first property of the source, in the order
    of [Object.values], that is no function and has the type text of the
    target; the suggestion is located at the target. *)
Theorem didYouMean_suggests_the_first_match context first rest layer s
    sourceMap before key match_ after :
  last (first :: rest) = Some layer →
  Context.sourceMap context = Some sourceMap →
  sourceMap = (before ++ (key, match_) :: after)%list →
  NodeInfo.isFunc match_ = false →
  NodeInfo.typeText match_ = NodeInfo.typeText (Layer.targetInfo layer) →
  Forall (λ entry, NodeInfo.isFunc entry.2 = true
                   ∨ NodeInfo.typeText entry.2 ≠ NodeInfo.typeText (Layer.targetInfo layer))
         before →
  didYouMeanThisChildProperty context (first :: rest) s
  = Normal tt
      {| Store.choices := Store.choices s;
         Store.suggestions :=
           (Store.suggestions s ++
            [ {| Suggestion.message :=
                   "Did you mean to use this " +:+
                   chalk_magenta (NodeInfo.nodeText (Layer.sourceInfo layer) +:+ "." +:+
                                  NodeInfo.nodeText match_) +:+
                   " instead of this " +:+
                   chalk_magenta (NodeInfo.nodeText (Layer.sourceInfo layer));
                 Suggestion.link := NodeInfo.nodeLink (Layer.targetInfo layer) |} ])%list;
         Store.cache := Store.cache s |}.
Proof.
  intros Hlast HsourceMap -> Hfunc Htype Hbefore.
  rewrite didYouMeanThisChildProperty_run. unfold childSuggestion, suggesting.
  rewrite HsourceMap, Hlast.
  assert (find (λ source, negb (NodeInfo.isFunc source) &&
                          bool_decide (NodeInfo.typeText source
                                       = NodeInfo.typeText (Layer.targetInfo layer)))
               ((before ++ (key, match_) :: after)%list.*2) = Some match_) as ->; [|done].
  clear HsourceMap. induction Hbefore as [|[k info] before Hinfo _ IH]; cbn.
  - by rewrite Hfunc, bool_decide_eq_true_2.
  - cbn in Hinfo.
    destruct Hinfo as [Hinfo | Hdiffer];
      [rewrite Hinfo|rewrite (bool_decide_eq_false_2 _ Hdiffer), andb_false_r];
      exact IH.
Qed.

(** X19.  [didYouMeanThisChildProperty] suggests nothing when the context
    has no source map, or when every property of the source is a function or
    has another type text than the target. *)
Theorem didYouMean_needs_a_match context first rest layer s :
  last (first :: rest) = Some layer →
  (∀ sourceMap, Context.sourceMap context = Some sourceMap →
     Forall (λ entry, NodeInfo.isFunc entry.2 = true
                      ∨ NodeInfo.typeText entry.2 ≠ NodeInfo.typeText (Layer.targetInfo layer))
            sourceMap) →
  didYouMeanThisChildProperty context (first :: rest) s = Normal tt s.
Proof.
  intros Hlast Hnone.
  rewrite didYouMeanThisChildProperty_run. unfold childSuggestion.
  destruct (Context.sourceMap context) as [sourceMap|]; [|by rewrite suggesting_nil].
  rewrite Hlast. specialize (Hnone sourceMap eq_refl).
  assert (find (λ source, negb (NodeInfo.isFunc source) &&
                          bool_decide (NodeInfo.typeText source
                                       = NodeInfo.typeText (Layer.targetInfo layer)))
               (sourceMap.*2) = None) as ->; [|by rewrite suggesting_nil].
  induction Hnone as [|[k info] sourceMap Hinfo _ IH]; cbn; [done|].
  cbn in Hinfo.
  destruct Hinfo as [Hinfo | Hdiffer];
    [rewrite Hinfo|rewrite (bool_decide_eq_false_2 _ Hdiffer), andb_false_r];
    exact IH.
Qed.

End CatalogMore.

(** ** The hound *)

Section FixingMore.
Context `{Hound}.

(** Unfolding the body of the loop at a diagnostic that reaches a node. *)
Lemma forDiagnostic_at_node fileNames st d fileName errorNode :
  sniffing st →
  errorNodeOf fileNames d = Some (fileName, errorNode) →
  ∃ fileCache,
    (∀ name cache, fileCache !! name = Some cache → cache = cacheFile name)
    ∧ Sniffed.fileCache (forDiagnostic fileNames st d) = fileCache
    ∧ sameOutcome (forDiagnostic fileNames st d)
        (let st' :=
           if bool_decide (Diagnostic.code d ∈ ignoreTheseErrors) then st else
           if bool_decide (problemBegOf errorNode ∈ Sniffed.processedNodes st) then st else
           let problems :=
             findProblems (Diagnostic.code d) errorNode (getClosestTarget errorNode)
               (problemBegOf errorNode) (cacheFile fileName) in
           if bool_decide (problems ≠ []) then
             {| Sniffed.hadProblem := true;
                Sniffed.anyProblem := true;
                Sniffed.fileCache := Sniffed.fileCache st;
                Sniffed.missingSupport := Sniffed.missingSupport st;
                Sniffed.processedNodes := {[problemBegOf errorNode]} ∪ Sniffed.processedNodes st;
                Sniffed.allProblems := (Sniffed.allProblems st ++ problems)%list |}
           else
             {| Sniffed.hadProblem := false;
                Sniffed.anyProblem := Sniffed.anyProblem st;
                Sniffed.fileCache := Sniffed.fileCache st;
                Sniffed.missingSupport :=
                  (Sniffed.missingSupport st ++
                   [ missingSupportLine (Diagnostic.code d) (getClosestTarget errorNode)
                       (problemBegOf errorNode);
                     getNodeLink (getClosestTarget errorNode) +:+ newline ])%list;
                Sniffed.processedNodes := Sniffed.processedNodes st;
                Sniffed.allProblems := Sniffed.allProblems st |} in
         st').
Proof.
  intros Hst Hnode.
  exists (Sniffed.fileCache (forDiagnostic fileNames st d)).
  split; [apply (sniffing_forDiagnostic fileNames st d Hst)|]. split; [done|].
  destruct Hst as [Hhad Hcache].
  unfold errorNodeOf in Hnode. unfold forDiagnostic, sameOutcome, problemBegOf.
  destruct (Diagnostic.file d) as [name|]; [|done].
  case_bool_decide; [|done].
  destruct (truthyNumber (Diagnostic.start d)) as [start|]; [|done].
  destruct (startToNode (cacheFile name) start) as [node|] eqn:Hstart; [|done].
  cbn in Hnode. injection Hnode as <- <-.
  destruct (Sniffed.fileCache st !! name) as [cache|] eqn:E;
    [apply Hcache in E as ->|];
    rewrite Hstart; cbn;
    repeat case_bool_decide; cbn; repeat split; try done;
      try apply orb_true_r; try apply orb_false_r;
      (destruct (Sniffed.hadProblem st); [by rewrite Hhad|by rewrite orb_false_r]).
Qed.

Lemma sameOutcome_refl st : sameOutcome st st.
Proof. by repeat split. Qed.

Lemma sameOutcome_sym st1 st2 : sameOutcome st1 st2 → sameOutcome st2 st1.
Proof. intros (? & ? & ? & ?). by repeat split. Qed.

Lemma sameOutcome_trans st1 st2 st3 :
  sameOutcome st1 st2 → sameOutcome st2 st3 → sameOutcome st1 st3.
Proof. intros (? & ? & ? & ?) (? & ? & ? & ?). repeat split; congruence. Qed.

(** A diagnostic that reaches no node changes nothing but [fileCache]. *)
Lemma forDiagnostic_no_node fileNames st d :
  sniffing st → errorNodeOf fileNames d = None →
  sameFindings st (forDiagnostic fileNames st d).
Proof.
  intros [_ Hcache] Hnode. unfold errorNodeOf in Hnode.
  unfold forDiagnostic, sameFindings.
  destruct (Diagnostic.file d) as [name|]; [|done].
  case_bool_decide; [|done].
  destruct (truthyNumber (Diagnostic.start d)) as [start|].
  - destruct (startToNode (cacheFile name) start) as [node|] eqn:Hstart; [done|].
    destruct (Sniffed.fileCache st !! name) as [cache|] eqn:E;
      [apply Hcache in E as ->|]; by rewrite Hstart.
  - by destruct (Sniffed.fileCache st !! name).
Qed.

Lemma sameFindings_sameOutcome st1 st2 : sameFindings st1 st2 → sameOutcome st1 st2.
Proof. by intros (_ & ? & ? & ? & ?). Qed.

Lemma sameOutcome_forDiagnostic fileNames st1 st2 d :
  sniffing st1 → sniffing st2 → sameOutcome st1 st2 →
  sameOutcome (forDiagnostic fileNames st1 d) (forDiagnostic fileNames st2 d).
Proof.
  intros Hst1 Hst2 Hsame.
  destruct (errorNodeOf fileNames d) as [[fileName errorNode]|] eqn:Hnode.
  - destruct (forDiagnostic_at_node fileNames st1 d fileName errorNode Hst1 Hnode)
      as (_ & _ & _ & H1).
    destruct (forDiagnostic_at_node fileNames st2 d fileName errorNode Hst2 Hnode)
      as (_ & _ & _ & H2).
    eapply sameOutcome_trans; [exact H1|].
    eapply sameOutcome_trans; [|apply sameOutcome_sym; exact H2].
    destruct Hsame as (Hany & Hmiss & Hproc & Hall). cbn zeta.
    rewrite Hproc.
    repeat case_bool_decide; unfold sameOutcome; cbn; rewrite ?Hany, ?Hmiss, ?Hproc, ?Hall;
      by repeat split.
  - eapply sameOutcome_trans;
      [apply sameOutcome_sym, sameFindings_sameOutcome, forDiagnostic_no_node; done|].
    eapply sameOutcome_trans; [exact Hsame|].
    by apply sameFindings_sameOutcome, forDiagnostic_no_node.
Qed.

Lemma sameOutcome_foldl fileNames ds st1 st2 :
  sniffing st1 → sniffing st2 → sameOutcome st1 st2 →
  sameOutcome (foldl (forDiagnostic fileNames) st1 ds)
              (foldl (forDiagnostic fileNames) st2 ds).
Proof.
  revert st1 st2. induction ds as [|d ds IH]; intros st1 st2 H1 H2 Hsame; [done|].
  cbn. apply IH; auto using sniffing_forDiagnostic, sameOutcome_forDiagnostic.
Qed.

(** Dropping a diagnostic that leaves the findings as they are. *)
Lemma sameOutcome_drop fileNames before d after :
  sameOutcome (sniff before fileNames) (forDiagnostic fileNames (sniff before fileNames) d) →
  sameOutcome (sniff (before ++ after) fileNames) (sniff (before ++ d :: after) fileNames).
Proof.
  intros Hstep. rewrite !sniff_app. cbn [foldl].
  apply sameOutcome_foldl; auto using sniffing_forDiagnostic, sniffing_sniff.
Qed.

(** X1.  A diagnostic without a file, or of a file that is not among the
    files of the run, has no effect at all: the loop over the diagnostics
    ends in the same state, and the run is the same, as without it. *)
Theorem diagnostics_of_other_files_are_ignored fileNames before d after world :
  (∀ fileName, Diagnostic.file d = Some fileName → fileName ∉ fileNames) →
  sniff (before ++ d :: after) fileNames = sniff (before ++ after) fileNames
  ∧ startFixing (before ++ d :: after) fileNames world
    = startFixing (before ++ after) fileNames world.
Proof.
  intros Hother.
  assert (Hsniff : sniff (before ++ d :: after) fileNames = sniff (before ++ after) fileNames).
  { rewrite !sniff_app. cbn [foldl]. f_equal.
    unfold forDiagnostic. destruct (Diagnostic.file d) as [fileName|]; [|done].
    by rewrite bool_decide_eq_false_2 by auto. }
  split; [done|]. unfold startFixing. by rewrite Hsniff.
Qed.

(** X2.  A diagnostic that reaches no node (no file or a file outside the
    run, a start that is undefined or 0, or no node at its start) adds no
    problem, no missing-support entry and no processed offset, and leaves
    [anyProblem] as it is. *)
Theorem diagnostic_without_node_finds_nothing fileNames before d after :
  errorNodeOf fileNames d = None →
  sameOutcome (sniff (before ++ d :: after) fileNames) (sniff (before ++ after) fileNames).
Proof.
  intros Hnode. apply sameOutcome_sym, sameOutcome_drop.
  apply sameFindings_sameOutcome, forDiagnostic_no_node; [apply sniffing_sniff|done].
Qed.

Lemma processedNodes_forDiagnostic fileNames st d :
  Sniffed.processedNodes st ⊆ Sniffed.processedNodes (forDiagnostic fileNames st d).
Proof. unfold forDiagnostic. repeat case_match; simplify_eq; cbn; set_solver. Qed.

Lemma processedNodes_foldl fileNames ds st :
  Sniffed.processedNodes st ⊆ Sniffed.processedNodes (foldl (forDiagnostic fileNames) st ds).
Proof.
  revert st. induction ds as [|d ds IH]; intros st; cbn; [done|].
  etrans; [apply (processedNodes_forDiagnostic fileNames st d)|apply IH].
Qed.

(** A diagnostic whose closest target starts at a processed offset leaves the
    findings as they are. *)
Lemma forDiagnostic_at_processed fileNames st d fileName errorNode :
  sniffing st →
  errorNodeOf fileNames d = Some (fileName, errorNode) →
  problemBegOf errorNode ∈ Sniffed.processedNodes st →
  sameOutcome st (forDiagnostic fileNames st d).
Proof.
  intros Hst Hnode Hprocessed.
  destruct (forDiagnostic_at_node fileNames st d fileName errorNode Hst Hnode)
    as (_ & _ & _ & Hstep).
  apply sameOutcome_sym. eapply sameOutcome_trans; [exact Hstep|]. cbn zeta.
  rewrite (bool_decide_eq_true_2 _ Hprocessed).
  case_bool_decide; apply sameOutcome_refl.
Qed.

(** X3.  Once a diagnostic has been classified into problems, a later
    diagnostic whose closest target starts at the same offset is skipped,
    whatever its error code and its file: the findings are those of the run
    without it. *)
Theorem later_diagnostic_at_classified_offset_is_skipped fileNames
    before d1 between d2 after fileName1 errorNode1 fileName2 errorNode2 :
  errorNodeOf fileNames d1 = Some (fileName1, errorNode1) →
  Diagnostic.code d1 ∉ ignoreTheseErrors →
  findProblems (Diagnostic.code d1) errorNode1 (getClosestTarget errorNode1)
    (problemBegOf errorNode1) (cacheFile fileName1) ≠ [] →
  errorNodeOf fileNames d2 = Some (fileName2, errorNode2) →
  problemBegOf errorNode2 = problemBegOf errorNode1 →
  sameOutcome (sniff (before ++ d1 :: between ++ d2 :: after) fileNames)
              (sniff (before ++ d1 :: between ++ after) fileNames).
Proof.
  intros Hnode1 Hcode1 Hfound Hnode2 Hsame.
  replace (before ++ d1 :: between ++ d2 :: after)%list
    with ((before ++ d1 :: between) ++ d2 :: after)%list by by rewrite <- app_assoc.
  replace (before ++ d1 :: between ++ after)%list
    with ((before ++ d1 :: between) ++ after)%list by by rewrite <- app_assoc.
  apply sameOutcome_sym, sameOutcome_drop.
  apply (forDiagnostic_at_processed _ _ _ fileName2 errorNode2);
    [apply sniffing_sniff|done|].
  rewrite Hsame, sniff_app. cbn [foldl].
  apply processedNodes_foldl.
  destruct (forDiagnostic_at_node fileNames (sniff before fileNames) d1 fileName1 errorNode1)
    as (_ & _ & _ & _ & _ & -> & _); [apply sniffing_sniff|done|].
  rewrite (bool_decide_eq_false_2 _ Hcode1).
  case_bool_decide as Hprocessed; [done|]. cbn zeta.
  rewrite (bool_decide_eq_true_2 _ Hfound). cbn. set_solver.
Qed.

(** X4.  An offset is marked as processed only when problems are found:
    after a diagnostic that [findProblems] does not classify, the next
    diagnostic at the same offset is still handed to [findProblems], and its
    problems are added. *)
Theorem unclassified_offset_stays_open fileNames
    before d1 d2 fileName1 errorNode1 fileName2 errorNode2 :
  errorNodeOf fileNames d1 = Some (fileName1, errorNode1) →
  Diagnostic.code d1 ∉ ignoreTheseErrors →
  problemBegOf errorNode1 ∉ Sniffed.processedNodes (sniff before fileNames) →
  findProblems (Diagnostic.code d1) errorNode1 (getClosestTarget errorNode1)
    (problemBegOf errorNode1) (cacheFile fileName1) = [] →
  errorNodeOf fileNames d2 = Some (fileName2, errorNode2) →
  Diagnostic.code d2 ∉ ignoreTheseErrors →
  problemBegOf errorNode2 = problemBegOf errorNode1 →
  Sniffed.allProblems (sniff (before ++ [d1; d2]) fileNames)
  = (Sniffed.allProblems (sniff before fileNames) ++
     findProblems (Diagnostic.code d2) errorNode2 (getClosestTarget errorNode2)
       (problemBegOf errorNode2) (cacheFile fileName2))%list.
Proof.
  intros Hnode1 Hcode1 Hfresh Hnone Hnode2 Hcode2 Hsame.
  rewrite sniff_app. cbn [foldl].
  pose proof (sniffing_sniff before fileNames) as Hst.
  destruct (forDiagnostic_at_node fileNames _ d1 fileName1 errorNode1 Hst Hnode1)
    as (_ & _ & _ & _ & _ & Hproc1 & Hall1).
  cbn zeta in Hproc1, Hall1.
  rewrite (bool_decide_eq_false_2 _ Hcode1), (bool_decide_eq_false_2 _ Hfresh), Hnone
    in Hproc1, Hall1.
  rewrite bool_decide_eq_false_2 in Hproc1, Hall1 by (by intros ?). cbn in Hproc1, Hall1.
  destruct (forDiagnostic_at_node fileNames _ d2 fileName2 errorNode2
              (sniffing_forDiagnostic fileNames _ d1 Hst) Hnode2)
    as (_ & _ & _ & _ & _ & _ & ->).
  cbn zeta.
  rewrite (bool_decide_eq_false_2 _ Hcode2), Hproc1, Hsame.
  rewrite (bool_decide_eq_false_2 _ Hfresh). rewrite <- Hsame.
  case_bool_decide as Hfound; cbn; rewrite Hall1; [done|].
  by rewrite Hfound, app_nil_r.
Qed.

(** Either nothing was found yet, or something was. *)
Lemma found_or_not_foldl fileNames ds st :
  (Sniffed.allProblems st = [] ∧ Sniffed.processedNodes st = ∅
   ∧ Sniffed.anyProblem st = false ∧ Sniffed.hadProblem st = false)
  ∨ (Sniffed.allProblems st ≠ [] ∧ Sniffed.processedNodes st ≠ ∅
     ∧ Sniffed.anyProblem st = true) →
  let st' := foldl (forDiagnostic fileNames) st ds in
  (Sniffed.allProblems st' = [] ∧ Sniffed.processedNodes st' = ∅
   ∧ Sniffed.anyProblem st' = false ∧ Sniffed.hadProblem st' = false)
  ∨ (Sniffed.allProblems st' ≠ [] ∧ Sniffed.processedNodes st' ≠ ∅
     ∧ Sniffed.anyProblem st' = true).
Proof.
  revert st. induction ds as [|d ds IH]; intros st Hst; [done|].
  cbn. apply IH. clear IH.
  unfold forDiagnostic.
  destruct Hst as [(Hall & Hproc & Hany & Hhad)|(Hall & Hproc & Hany)].
  - repeat case_match; simplify_eq; cbn; rewrite ?Hall, ?Hproc, ?Hany, ?Hhad;
      try (by left); right; cbn; repeat split; try done;
      try (by eapply bool_decide_eq_true_1); set_solver.
  - right. repeat case_match; simplify_eq; cbn; rewrite ?Hany; repeat split; try done;
      try (by intros [? _]%app_eq_nil); set_solver.
Qed.

(** X5.  After the loop over the diagnostics, [anyProblem] is set exactly
    when [allProblems] is not empty, and [processedNodes] is empty exactly
    when [allProblems] is. *)
Theorem anyProblem_iff_problem_found semanticDiagnostics fileNames :
  let st := sniff semanticDiagnostics fileNames in
  (Sniffed.anyProblem st = true ↔ Sniffed.allProblems st ≠ [])
  ∧ (Sniffed.processedNodes st = ∅ ↔ Sniffed.allProblems st = []).
Proof.
  intros st.
  destruct (found_or_not_foldl fileNames semanticDiagnostics initially)
    as [(Hall & Hproc & Hany & _)|(Hall & Hproc & Hany)]; [by left| |];
    fold (sniff semanticDiagnostics fileNames) in *; fold st in Hall, Hproc, Hany.
  - rewrite Hall, Hproc, Hany. by repeat split.
  - rewrite Hany. by repeat split.
Qed.

Lemma grows_forDiagnostic fileNames st d :
  let st' := forDiagnostic fileNames st d in
  Sniffed.allProblems st `prefix_of` Sniffed.allProblems st'
  ∧ Sniffed.missingSupport st `prefix_of` Sniffed.missingSupport st'
  ∧ Sniffed.processedNodes st ⊆ Sniffed.processedNodes st'
  ∧ (sniffing st → Sniffed.fileCache st ⊆ Sniffed.fileCache st')
  ∧ (Sniffed.anyProblem st = true → Sniffed.anyProblem st' = true).
Proof.
  unfold forDiagnostic.
  repeat case_match; simplify_eq; cbn; repeat split; try done;
    try (by apply prefix_app_r); try set_solver;
    try (by intros ->);
    try (intros _; by apply insert_subseteq).
Qed.

(** X6.  Findings only grow: with more diagnostics, the problems and the
    missing-support entries found so far stay, as a prefix, and so do the
    processed offsets, the cached files and a set [anyProblem]. *)
Theorem findings_only_grow earlier later fileNames :
  let st := sniff earlier fileNames in
  let st' := sniff (earlier ++ later) fileNames in
  Sniffed.allProblems st `prefix_of` Sniffed.allProblems st'
  ∧ Sniffed.missingSupport st `prefix_of` Sniffed.missingSupport st'
  ∧ Sniffed.processedNodes st ⊆ Sniffed.processedNodes st'
  ∧ Sniffed.fileCache st ⊆ Sniffed.fileCache st'
  ∧ (Sniffed.anyProblem st = true → Sniffed.anyProblem st' = true).
Proof.
  intros st st'. subst st'. rewrite sniff_app. fold st.
  assert (Hst : sniffing st) by apply sniffing_sniff.
  clearbody st. revert st Hst.
  induction later as [|d later IH]; intros st Hst; [done|].
  cbn [foldl].
  destruct (grows_forDiagnostic fileNames st d) as (H1 & H2 & H3 & H4 & H5).
  destruct (IH (forDiagnostic fileNames st d) (sniffing_forDiagnostic _ _ _ Hst))
    as (G1 & G2 & G3 & G4 & G5).
  split; [by etrans|]. split; [by etrans|]. split; [by etrans|].
  split; [etrans; [exact (H4 Hst)|exact G4]|]. intros Hany. by apply G5, H5.
Qed.

Lemma fileCache_forDiagnostic fileNames st d fileName :
  is_Some (Sniffed.fileCache (forDiagnostic fileNames st d) !! fileName)
  ↔ is_Some (Sniffed.fileCache st !! fileName)
    ∨ (Diagnostic.file d = Some fileName ∧ fileName ∈ fileNames).
Proof.
  unfold forDiagnostic.
  destruct (Diagnostic.file d) as [name|];
    [|split; [auto|intros [?|[[=] _]]; done]].
  case_bool_decide as Hnames;
    [|split; [auto|intros [?|[[= <-] ?]]; done]].
  assert (Hcached :
    is_Some (match Sniffed.fileCache st !! name with
             | Some _ => Sniffed.fileCache st
             | None => <[name := cacheFile name]> (Sniffed.fileCache st)
             end !! fileName)
    ↔ is_Some (Sniffed.fileCache st !! fileName) ∨ (Some name = Some fileName ∧ fileName ∈ fileNames)).
  { destruct (Sniffed.fileCache st !! name) eqn:E.
    - split; [auto|]. intros [?|[[= <-] _]]; [done|]. by rewrite E.
    - rewrite lookup_insert_is_Some. split.
      + intros [<-|[_ ?]]; [by right|by left].
      + intros [?|[[= <-] _]]; [|by left].
        destruct (decide (name = fileName)); [by left|by right]. }
  destruct (Sniffed.fileCache st !! name); repeat case_match; simplify_eq; cbn; exact Hcached.
Qed.

(** X7.  [fileCache] holds exactly the files of the run that have a
    diagnostic, whatever its code and start, each with the cache [cacheFile]
    builds for it. *)
Theorem fileCache_holds_the_files_seen semanticDiagnostics fileNames fileName cache :
  Sniffed.fileCache (sniff semanticDiagnostics fileNames) !! fileName = Some cache
  ↔ cache = cacheFile fileName
    ∧ fileName ∈ fileNames
    ∧ ∃ d, d ∈ semanticDiagnostics ∧ Diagnostic.file d = Some fileName.
Proof.
  assert (Hdom : ∀ ds st,
    is_Some (Sniffed.fileCache (foldl (forDiagnostic fileNames) st ds) !! fileName)
    ↔ is_Some (Sniffed.fileCache st !! fileName)
      ∨ (fileName ∈ fileNames ∧ ∃ d, d ∈ ds ∧ Diagnostic.file d = Some fileName)).
  { induction ds as [|d ds IH]; intros st; cbn.
    - split; [auto|]. intros [?|(_ & d & ?%elem_of_nil & _)]; done.
    - rewrite IH, fileCache_forDiagnostic. split.
      + intros [[?|[? ?]]|(? & d' & ? & ?)]; [by left|right|right].
        * split; [done|]. exists d. split; [apply list_elem_of_here|done].
        * split; [done|]. exists d'. split; [by apply list_elem_of_further|done].
      + intros [?|(? & d' & [->|?]%elem_of_cons & ?)]; [by left; left|by left; right|].
        right. split; [done|]. by exists d'. }
  destruct (sniffing_sniff semanticDiagnostics fileNames) as [_ Hcache].
  specialize (Hdom semanticDiagnostics initially).
  fold (sniff semanticDiagnostics fileNames) in Hdom. split.
  - intros Hlookup. split; [by apply Hcache|].
    destruct Hdom as [Hdom _]. destruct Hdom as [Hinit|?]; [by eexists| |done].
    cbn in Hinit. rewrite lookup_empty in Hinit. by destruct Hinit.
  - intros (-> & Hnames & Hd).
    destruct Hdom as [_ Hdom]. destruct Hdom as [cache Hlookup]; [by right|].
    by rewrite (Hcache _ _ Hlookup) in Hlookup.
Qed.

Lemma presentEach_snoc shown problem run :
  presentEach (shown ++ [problem]) run = (presentProblem problem (presentEach shown run)).2.
Proof. unfold presentEach. by rewrite foldl_app. Qed.


Lemma presentEach_console shown run :
  Run.console (presentEach shown run)
  = (Run.console run ++ replicate (length shown) (newline +:+ newline))%list.
Proof.
  unfold presentEach.
  revert run. induction shown as [|problem shown IH]; intros run; cbn.
  - by rewrite app_nil_r.
  - rewrite IH. unfold presentProblem.
    destruct (showPromptFixes _ _) as [quit [fileCache world]]. cbn.
    by rewrite <- app_assoc.
Qed.

Lemma promptForFixes_no_quit allProblems run :
  (promptForFixes allProblems run).1 = false →
  (promptForFixes allProblems run).2 = presentEach allProblems run.
Proof.
  unfold presentEach.
  revert run. induction allProblems as [|problem rest IH]; intros run; cbn; [done|].
  destruct (presentProblem problem run) as [[] run1]; [done|]. apply IH.
Qed.

(** X9.  In a run in which no prompt quits, [startFixing] prints a blank
    line at the start and one after each problem, then the missing-support
    entries if there are any, else the no-squirrels line if no problem was
    found, and last the closing rule. *)
Theorem run_without_quit_prints semanticDiagnostics fileNames world :
  let st := sniff semanticDiagnostics fileNames in
  (promptForFixes (Sniffed.allProblems st) (beforePrompts st world)).1 = false →
  Run.console (startFixing semanticDiagnostics fileNames world)
  = (replicate (S (length (Sniffed.allProblems st))) (newline +:+ newline)
     ++ closingLines st)%list.
Proof.
  intros st Hquit.
  pose proof (promptForFixes_no_quit _ _ Hquit) as Hrun.
  unfold startFixing. fold st. unfold console_log at 1. cbn.
  fold (beforePrompts st world).
  destruct (promptForFixes (Sniffed.allProblems st) (beforePrompts st world))
    as [anyQuit run'] eqn:Hloop.
  cbn in Hquit, Hrun. subst anyQuit run'.
  unfold closingLines.
  assert (Hconsole :
    Run.console (presentEach (Sniffed.allProblems st) (beforePrompts st world))
    = replicate (S (length (Sniffed.allProblems st))) (newline +:+ newline)).
  { by rewrite presentEach_console. }
  case_bool_decide; cbn.
  - rewrite console_log_each.
    destruct (Sniffed.anyProblem st); cbn; rewrite Hconsole; cbn; by rewrite app_assoc.
  - destruct (Sniffed.anyProblem st); cbn; rewrite Hconsole; cbn; by rewrite <- ?app_assoc.
Qed.

(** X10.  When no problem is found, the world is left untouched (nothing
    is prompted, [applyFixes] is not called), and the run prints a blank
    line, the missing-support entries if there are any and the no-squirrels
    line otherwise, and the closing rule. *)
Theorem nothing_found_nothing_done semanticDiagnostics fileNames world :
  let st := sniff semanticDiagnostics fileNames in
  Sniffed.allProblems st = [] →
  Run.world (startFixing semanticDiagnostics fileNames world) = world
  ∧ Run.fileCache (startFixing semanticDiagnostics fileNames world) = Sniffed.fileCache st
  ∧ Run.console (startFixing semanticDiagnostics fileNames world)
    = (newline +:+ newline) ::
      (if bool_decide (Sniffed.missingSupport st ≠ [])
       then Sniffed.missingSupport st
       else [newline +:+ "--no squirrels--"]) ++
      [newline +:+ newline +:+
       "--------------------------------------------------------------------------"].
Proof.
  intros st Hnone.
  assert (Hany : Sniffed.anyProblem st = false).
  { destruct (found_or_not_foldl fileNames semanticDiagnostics initially)
      as [(_ & _ & Hany & _)|(Hall & _)]; [by left|done|].
    by destruct Hall. }
  unfold startFixing. fold st. rewrite Hnone, Hany. cbn.
  assert (Hlog : ∀ lines run,
    Run.world (foldl (λ run miss, console_log miss run) run lines) = Run.world run
    ∧ Run.fileCache (foldl (λ run miss, console_log miss run) run lines) = Run.fileCache run).
  { induction lines as [|line lines IH]; intros run; cbn; [done|]. by rewrite !(proj1 (IH _)), !(proj2 (IH _)). }
  case_bool_decide; cbn.
  - rewrite (proj1 (Hlog _ _)), (proj2 (Hlog _ _)), console_log_each. by cbn.
  - done.
Qed.

End FixingMore.

(** ** The further properties on the fixtures *)

Section MoreInstances.
Import Fixture.

Lemma diagnostics_of_other_files_are_ignored_witness :
  let before := [diagnostic 2322 "a.ts" 1] in
  let d := diagnostic 2322 "other.ts" 3 in
  let after := [diagnostic 9999 "a.ts" 5] in
  sniff (before ++ d :: after) ["a.ts"] = sniff (before ++ after) ["a.ts"]
  ∧ startFixing (before ++ d :: after) ["a.ts"] (project [Selected 0])
    = startFixing (before ++ after) ["a.ts"] (project [Selected 0]).
Proof.
  intros before d after.
  apply (diagnostics_of_other_files_are_ignored ["a.ts"] before d after).
  intros fileName [= <-]. compute_done.
Defined.

Lemma diagnostic_without_node_finds_nothing_witness :
  let before := [diagnostic 2322 "a.ts" 1] in
  let d := diagnostic 2322 "a.ts" 0 in
  let after := [diagnostic 9999 "a.ts" 5] in
  sameOutcome (sniff (before ++ d :: after) ["a.ts"]) (sniff (before ++ after) ["a.ts"]).
Proof.
  intros before d after.
  apply (diagnostic_without_node_finds_nothing ["a.ts"] before d after). reflexivity.
Defined.

Lemma later_diagnostic_at_classified_offset_is_skipped_witness :
  let d1 := diagnostic 2322 "a.ts" 4 in
  let between := [diagnostic 2322 "a.ts" 6] in
  let d2 := diagnostic 9999 "a.ts" 4 in
  sameOutcome (sniff ([] ++ d1 :: between ++ d2 :: []) ["a.ts"])
              (sniff ([] ++ d1 :: between ++ []) ["a.ts"]).
Proof.
  intros d1 between d2.
  apply (@later_diagnostic_at_classified_offset_is_skipped hound ["a.ts"] [] d1 between d2 []
           "a.ts" ("a.ts", 4) "a.ts" ("a.ts", 4));
    [reflexivity|compute_done|discriminate|reflexivity|reflexivity].
Defined.

Lemma unclassified_offset_stays_open_witness :
  let d1 := diagnostic 9999 "a.ts" 4 in
  let d2 := diagnostic 2322 "a.ts" 4 in
  Sniffed.allProblems (sniff ([] ++ [d1; d2]) ["a.ts"])
  = [ {| entryFile := "a.ts"; entryOffset := 4; candidates := [[hash 4]] |} ].
Proof.
  intros d1 d2.
  apply (@unclassified_offset_stays_open hound ["a.ts"] [] d1 d2
           "a.ts" ("a.ts", 4) "a.ts" ("a.ts", 4));
    [reflexivity|compute_done|compute_done|reflexivity|reflexivity|compute_done|reflexivity].
Defined.

Lemma run_without_quit_prints_witness :
  let diagnostics := [diagnostic 2322 "a.ts" 1; diagnostic 9999 "a.ts" 3] in
  Run.console (startFixing diagnostics ["a.ts"] (project [Selected 0]))
  = [ newline +:+ newline; newline +:+ newline;
      "For error 9999, missing support Identifier 3"; "a.ts:3" +:+ newline;
      newline +:+ newline +:+
      "--------------------------------------------------------------------------" ].
Proof.
  intros diagnostics.
  apply (@run_without_quit_prints hound diagnostics ["a.ts"] (project [Selected 0])).
  reflexivity.
Defined.

Lemma nothing_found_nothing_done_witness :
  let diagnostics := [diagnostic 6133 "a.ts" 1; diagnostic 2322 "a.ts" 0] in
  let run := startFixing diagnostics ["a.ts"] (project [Selected 0]) in
  Run.world run = project [Selected 0]
  ∧ Run.fileCache run = Sniffed.fileCache (sniff diagnostics ["a.ts"])
  ∧ Run.console run
    = [ newline +:+ newline; newline +:+ "--no squirrels--";
        newline +:+ newline +:+
        "--------------------------------------------------------------------------" ].
Proof.
  intros diagnostics.
  apply (@nothing_found_nothing_done hound diagnostics ["a.ts"] (project [Selected 0])).
  reflexivity.
Defined.

Lemma shape_kinds_share_edits_witness :
  let whenContext :=
    problemOf ErrorType.targetPropMissing (Some [("a", sourceA); ("c", sourceC)])
      target None source [] ["c"] [] in
  whenMismatchedOrMissingTypes whenContext emptyStore
  = Normal tt
      {| Store.choices :=
           [ {| Choice.title := "Fix missing properties?";
                Choice.prompt := "Add properties as optional to Target";
                Choice.edits :=
                  [ {| Edit.primeInfo := Some (NodeInfo.set_declaredId 0 target);
                       Edit.otherInfo := Some sourceC;
                       Edit.type := ReplacementType.insertOptionalProperty |} ] |} ];
         Store.suggestions := [];
         Store.cache := [Some (Some "Target")] |}.
Proof.
  intros whenContext.
  apply (shape_kinds_share_edits whenContext emptyStore
           {| Problem.mismatch := []; Problem.missing := ["c"];
              Problem.reversed := Some {| Reversed.missing := [] |};
              Problem.targetInfo := target |} []
           {| Layer.sourceInfo := source; Layer.targetInfo := target |} []
           [("a", sourceA); ("c", sourceC)]);
    [reflexivity|reflexivity|reflexivity|reflexivity|reflexivity|
     intros _; eexists; reflexivity|reflexivity].
Defined.

Lemma shape_choice_iff_some_key_witness :
  let whenContext :=
    problemOf ErrorType.both (Some [("a", sourceA); ("c", sourceC)])
      target None source [] [] [] in
  Store.choices (finalStore (whenMismatchedOrMissingTypes whenContext emptyStore)) = [].
Proof.
  intros whenContext.
  apply (shape_choice_iff_some_key whenContext emptyStore
           {| Problem.mismatch := []; Problem.missing := [];
              Problem.reversed := Some {| Reversed.missing := [] |};
              Problem.targetInfo := target |} []
           {| Layer.sourceInfo := source; Layer.targetInfo := target |} []
           [("a", sourceA); ("c", sourceC)]);
    [reflexivity|reflexivity|reflexivity|reflexivity|compute_done|reflexivity|
     intros Hmissing; exfalso; apply Hmissing; reflexivity|by repeat split].
Defined.

Lemma shape_without_declaration_throws_witness :
  let whenContext :=
    problemOf ErrorType.bothMissing (Some [("a", sourceA); ("inner", sourceInner)])
      undeclared None source ["a"] ["inner"] ["b"] in
  ∃ s', whenMismatchedOrMissingTypes whenContext emptyStore = TypeError s'
    ∧ Store.choices s' = []
    ∧ Suggestion.link <$> Store.suggestions s' = ["tgt.ts:1"]
    ∧ Store.cache s' = [].
Proof.
  intros whenContext. eexists. split.
  - apply (shape_without_declaration_throws whenContext emptyStore
             {| Problem.mismatch := ["a"]; Problem.missing := ["inner"];
                Problem.reversed := Some {| Reversed.missing := ["b"] |};
                Problem.targetInfo := undeclared |} []
             {| Layer.sourceInfo := source; Layer.targetInfo := target |} []);
      [reflexivity|reflexivity|reflexivity|reflexivity|compute_done|discriminate|reflexivity].
  - repeat split; reflexivity.
Defined.

Lemma placeholder_with_target_offers_convert_then_union_witness :
  let whenContext :=
    problemOf ErrorType.missingIndex None target (Some (placeholderOf "a" 2))
      (placeholderOf "a" 2) [] [] [] in
  ∃ convert union,
    whenMismatchedOrMissingTypes whenContext emptyStore
    = Normal tt {| Store.choices := [convert; union]; Store.suggestions := [];
                   Store.cache := [] |}
    ∧ Choice.edits convert =
        [ {| Edit.primeInfo :=
               Some (NodeInfo.set_type (Some [Some "Target"]) (placeholderOf "a" 2));
             Edit.otherInfo := Some (NodeInfo.set_type (Some [Some "Target"]) targetA);
             Edit.type := ReplacementType.convertType |} ]
    ∧ Choice.edits union =
        [ {| Edit.primeInfo := Some (NodeInfo.set_type (Some [Some "Target"]) targetA);
             Edit.otherInfo :=
               Some (NodeInfo.set_type (Some [Some "Target"]) (placeholderOf "a" 2));
             Edit.type := ReplacementType.unionType |} ]
    ∧ Choice.title convert = Choice.title union.
Proof.
  intros whenContext.
  apply (placeholder_with_target_offers_convert_then_union whenContext emptyStore
           {| Layer.sourceInfo := placeholderOf "a" 2; Layer.targetInfo := target |} []
           (placeholderOf "a" 2) targetA);
    [reflexivity|discriminate|reflexivity|discriminate|discriminate|discriminate|
     reflexivity|reflexivity|reflexivity].
Defined.


Lemma handler_leaves_other_problems_alone_witness :
  let whenContext :=
    problemOf ErrorType.missingIndex (Some [("a", sourceA)]) target None source
      ["a"] [] [] in
  whenMismatchedOrMissingTypes whenContext emptyStore = Normal tt emptyStore.
Proof.
  intros whenContext.
  apply (handler_leaves_other_problems_alone whenContext emptyStore).
  right. right. split; [discriminate|]. split; [by intros layer [= <-]|compute_done].
Defined.

Lemma didYouMean_suggests_the_first_match_witness :
  let whenContext :=
    problemOf ErrorType.propMismatch
      (Some [("a", sourceA); ("inner", sourceInner); ("other", sourceInner)])
      target None source [] [] [] in
  didYouMeanThisChildProperty (WhenContext.context whenContext)
    (WhenContext.stack whenContext) emptyStore
  = Normal tt
      {| Store.choices := [];
         Store.suggestions :=
           [ {| Suggestion.message :=
                  "Did you mean to use this <magenta>src.inner</magenta> instead of this <magenta>src</magenta>";
                Suggestion.link := "tgt.ts:1" |} ];
         Store.cache := [] |}.
Proof.
  intros whenContext.
  apply (didYouMean_suggests_the_first_match (WhenContext.context whenContext)
           {| Layer.sourceInfo := source; Layer.targetInfo := target |} []
           {| Layer.sourceInfo := source; Layer.targetInfo := target |} emptyStore
           [("a", sourceA); ("inner", sourceInner); ("other", sourceInner)]
           [("a", sourceA)] "inner" sourceInner [("other", sourceInner)]);
    [reflexivity|reflexivity|reflexivity|reflexivity|reflexivity|].
  constructor; [right; discriminate|constructor].
Defined.

Lemma didYouMean_needs_a_match_witness :
  let whenContext :=
    problemOf ErrorType.propMismatch (Some [("a", sourceA); ("c", sourceC)])
      target None source [] [] [] in
  didYouMeanThisChildProperty (WhenContext.context whenContext)
    (WhenContext.stack whenContext) emptyStore
  = Normal tt emptyStore.
Proof.
  intros whenContext.
  apply (didYouMean_needs_a_match (WhenContext.context whenContext)
           {| Layer.sourceInfo := source; Layer.targetInfo := target |} []
           {| Layer.sourceInfo := source; Layer.targetInfo := target |} emptyStore);
    [reflexivity|].
  intros sourceMap [= <-].
  constructor; [right; discriminate|].
  constructor; [right; discriminate|constructor].
Defined.

End MoreInstances.
